(** * AlphaFlow: risk gating, position ledger, order state machine and sizing

    Shallow embedding of the Python modules
    - backend/portfolio_risk.py      (PortfolioRiskManager)
    - core/position_sizing.py        (KellyCriterionCalculator, PortfolioHeatManager)
    - backend/daily_risk_manager.py  (DailyRiskManager)
    - backend/position_manager.py    (PositionManager stop/target checks)
    - backend/strategy_executor.py   (per-symbol body of the worker loop)
    - core/order_manager.py          (OrderManager)
    - core/portfolio_manager.py      (PortfolioManager: positions, cash and P&L)
    - core/position_sizing.py        (volatility sizing and AdvancedPositionSizer)
    - backend/position_manager.py    (the per-strategy position store)

    Python floats are modelled as exact rationals [Q]; Python ints as [Z].
    Log lines and reason strings are dropped except where a claim is about
    them (the breach log of the daily risk manager is counted). *)

From Stdlib Require Import QArith Qabs ZArith List String Bool Lia.
From stdpp Require Import base gmap strings.
Import ListNotations.
Open Scope Q_scope.

(** Strict comparison on [Q] as a boolean, as Python's [<]. *)
Definition Qlt_bool (x y : Q) : bool := negb (Qle_bool y x).

(** Python truthiness of an optional float: [None] and [0.0] are falsy. *)
Definition truthy_q (o : option Q) : bool :=
  match o with
  | Some x => negb (Qeq_bool x 0)
  | None => false
  end.

(* ------------------------------------------------------------------ *)
(** ** backend/portfolio_risk.py *)

Module PortfolioRisk.

(** A position dictionary as passed to the risk manager:
    [{'symbol', 'shares', 'entry_price', 'current_price'?, 'stop_loss'}]. *)
Record pos_dict := {
  pd_symbol : string;
  pd_shares : Q;
  pd_entry_price : Q;
  pd_current_price : option Q;   (* key may be missing *)
  pd_stop_loss : option Q
}.

(** [position.get('current_price', position.get('entry_price'))] *)
Definition price_of (p : pos_dict) : Q :=
  match pd_current_price p with
  | Some c => c
  | None => pd_entry_price p
  end.

Record PortfolioRiskManager := {
  max_portfolio_heat : Q;
  max_correlated_exposure : Q;
  correlation_threshold : Q
}.

(** Constructor defaults: 0.25, 0.15, 0.7. *)
Definition default_manager : PortfolioRiskManager := {|
  max_portfolio_heat := 25 # 100;
  max_correlated_exposure := 15 # 100;
  correlation_threshold := 7 # 10
|}.

(** One iteration of the loop of [calculate_portfolio_heat]. *)
Definition heat_step (total_risk : Q) (position : pos_dict) : Q :=
  if negb (truthy_q (pd_stop_loss position)) then total_risk
  else
    match pd_stop_loss position with
    | Some stop_loss =>
        let risk_per_share := Qabs (price_of position - stop_loss) in
        let position_risk := risk_per_share * pd_shares position in
        total_risk + position_risk
    | None => total_risk
    end.

Definition calculate_portfolio_heat (positions : list pos_dict) (portfolio_value : Q) : Q :=
  let total_risk := fold_left heat_step positions 0 in
  if Qlt_bool 0 portfolio_value then total_risk / portfolio_value else 0.

(** Returns [(is_within_limit, current_heat)]; the message is dropped. *)
Definition check_portfolio_heat_limit (m : PortfolioRiskManager)
    (positions : list pos_dict) (portfolio_value : Q) : bool * Q :=
  let current_heat := calculate_portfolio_heat positions portfolio_value in
  (Qle_bool current_heat (max_portfolio_heat m), current_heat).

(** The value of [corr_matrix.loc[symbol, other_symbol]] on the matrix
    returned by [calculate_correlation_matrix] for the symbols of the call
    (downloaded prices, the cache, or the identity fallback), as the
    comparison [correlation >= self.correlation_threshold] sees it:
    [Scalar c] a number; [Missing] a [KeyError] (label absent), caught by
    the loop, or a NaN entry, for which the comparison is False: either
    way the symbol is not absorbed; [NonScalar] a [Series] (a label
    repeated in the index or columns), whose truth value raises an
    uncaught [ValueError]. *)
Inductive loc_result := Scalar (c : Q) | Missing | NonScalar.

Definition corr_matrix := string -> string -> loc_result.

Definition mem_str (s : string) (l : list string) : bool :=
  existsb (String.eqb s) l.

(** Number of occurrences of a label. *)
Definition count_str (s : string) (l : list string) : nat :=
  length (List.filter (String.eqb s) l).

(** The fallback of [calculate_correlation_matrix] when the download
    fails: [pd.DataFrame(np.eye(len(symbols)), index=symbols,
    columns=symbols)], read through [.loc].  A repeated label selects
    several rows or columns, hence a [Series]. *)
Definition identity_fallback (symbols : list string) : corr_matrix :=
  fun a b =>
    if negb (mem_str a symbols && mem_str b symbols) then Missing
    else if (1 <? count_str a symbols)%nat || (1 <? count_str b symbols)%nat then NonScalar
    else Scalar (if String.eqb a b then 1 else 0).

(** A [for] loop whose body may raise: [None] is the exception. *)
Fixpoint fold_opt {A B : Type} (f : A -> B -> option A) (l : list B) (a : A) : option A :=
  match l with
  | [] => Some a
  | x :: l' =>
      match f a x with
      | Some a' => fold_opt f l' a'
      | None => None
      end
  end.

(** Inner loop of [find_correlated_clusters] for seed [symbol]. *)
Definition absorb (m : PortfolioRiskManager) (corr : corr_matrix) (symbol : string)
    (st : list string * list string) (other_symbol : string)
    : option (list string * list string) :=
  let '(cluster, assigned) := st in
  if String.eqb other_symbol symbol || mem_str other_symbol assigned then Some st
  else
    match corr symbol other_symbol with
    | Scalar correlation =>
        if Qle_bool (correlation_threshold m) correlation
        then Some (cluster ++ [other_symbol], other_symbol :: assigned)
        else Some st
    | Missing => Some st
    | NonScalar => None
    end.

(** Outer loop of [find_correlated_clusters]. *)
Definition cluster_step (m : PortfolioRiskManager) (corr : corr_matrix) (symbols : list string)
    (st : list (list string) * list string) (symbol : string)
    : option (list (list string) * list string) :=
  let '(clusters, assigned) := st in
  if mem_str symbol assigned then Some st
  else
    match fold_opt (absorb m corr symbol) symbols ([symbol], symbol :: assigned) with
    | Some (cluster, assigned') => Some (clusters ++ [cluster], assigned')
    | None => None
    end.

(** [None] is the uncaught [ValueError] of the comparison. *)
Definition find_correlated_clusters (m : PortfolioRiskManager) (corr : corr_matrix)
    (symbols : list string) : option (list (list string)) :=
  if (length symbols <=? 1)%nat then Some [symbols]
  else
    match fold_opt (cluster_step m corr symbols) symbols ([], []) with
    | Some (clusters, _) => Some clusters
    | None => None
    end.

Definition cluster_value (positions : list pos_dict) (cluster : list string) : Q :=
  fold_left (fun acc p => if mem_str (pd_symbol p) cluster
                          then acc + pd_shares p * price_of p else acc) positions 0.

(** Returns [(is_within_limit, max_cluster_exposure)]; [None] is an
    exception of [find_correlated_clusters]. *)
Definition check_correlated_exposure (m : PortfolioRiskManager) (corr : corr_matrix)
    (positions : list pos_dict) (portfolio_value : Q) : option (bool * Q) :=
  match positions with
  | [] => Some (true, 0)
  | _ =>
    let symbols := map pd_symbol positions in
    match find_correlated_clusters m corr symbols with
    | None => None
    | Some clusters =>
      let max_cluster_exposure :=
        fold_left (fun mx cluster =>
          let cv := cluster_value positions cluster in
          let cluster_exposure :=
            if Qlt_bool 0 portfolio_value then cv / portfolio_value else 0 in
          if Qlt_bool mx cluster_exposure then cluster_exposure else mx) clusters 0 in
      Some (Qle_bool max_cluster_exposure (max_correlated_exposure m), max_cluster_exposure)
    end
  end.

(** The hypothetical position built by [can_open_new_position]. *)
Definition hypothetical_position (symbol : string) (position_value stop_loss_price entry_price : Q)
    : pos_dict := {|
  pd_symbol := symbol;
  pd_shares := position_value / entry_price;
  pd_entry_price := entry_price;
  pd_current_price := Some entry_price;
  pd_stop_loss := Some stop_loss_price |}.

(** [can_open_new_position]; [None] is an uncaught exception: the
    [ZeroDivisionError] of [position_value / entry_price], or one raised
    by [check_correlated_exposure]. *)
Definition can_open_new_position (m : PortfolioRiskManager) (corr : corr_matrix)
    (symbol : string) (position_value stop_loss_price entry_price : Q)
    (existing_positions : list pos_dict) (portfolio_value : Q) : option bool :=
  if Qeq_bool entry_price 0 then None
  else
    let new_position := hypothetical_position symbol position_value stop_loss_price entry_price in
    let all_positions := existing_positions ++ [new_position] in
    let '(heat_ok, _) := check_portfolio_heat_limit m all_positions portfolio_value in
    if negb heat_ok then Some false
    else
      match check_correlated_exposure m corr all_positions portfolio_value with
      | None => None
      | Some (corr_ok, _) => if negb corr_ok then Some false else Some true
      end.

End PortfolioRisk.

(* ------------------------------------------------------------------ *)
(** ** core/position_sizing.py *)

Module PositionSizing.

Record KellyCriterionCalculator := {
  fraction : Q;
  max_position : Q
}.

(** Constructor defaults: half Kelly, 25% cap. *)
Definition default_kelly : KellyCriterionCalculator := {|
  fraction := 1 # 2;
  max_position := 25 # 100
|}.

(** [KellyCriterionCalculator.calculate_position_size]: a dollar amount.
    With [reward_risk_ratio > 0] the division cannot raise, so the
    [except] branch is unreachable. *)
Definition calculate_position_size (k : KellyCriterionCalculator)
    (win_rate reward_risk_ratio portfolio_value : Q) : Q :=
  if Qlt_bool win_rate (4 # 10) || Qlt_bool 1 win_rate then
    portfolio_value * (5 # 100)
  else if Qle_bool reward_risk_ratio 0 then
    portfolio_value * (5 # 100)
  else
    let p := win_rate in
    let q := 1 - p in
    let b := reward_risk_ratio in
    let kelly_fraction := (b * p - q) / b in
    let safe_kelly := kelly_fraction * fraction k in
    (* max(0, safe_kelly) *)
    let safe_kelly := if Qlt_bool 0 safe_kelly then safe_kelly else 0 in
    (* min(safe_kelly, self.max_position) *)
    let safe_kelly := if Qlt_bool (max_position k) safe_kelly then max_position k else safe_kelly in
    portfolio_value * safe_kelly.

(** The Kelly fraction applied by [calculate_position_size] on the
    non-fallback path. *)
Definition applied_fraction (k : KellyCriterionCalculator) (win_rate reward_risk_ratio : Q) : Q :=
  let kelly_fraction := (reward_risk_ratio * win_rate - (1 - win_rate)) / reward_risk_ratio in
  let safe_kelly := kelly_fraction * fraction k in
  let safe_kelly := if Qlt_bool 0 safe_kelly then safe_kelly else 0 in
  if Qlt_bool (max_position k) safe_kelly then max_position k else safe_kelly.

Record PortfolioHeatManager := {
  max_heat_pct : Q;
  warning_heat_pct : Q
}.

(** Constructor defaults: 6% and 4%. *)
Definition default_heat_manager : PortfolioHeatManager := {|
  max_heat_pct := 6 # 100;
  warning_heat_pct := 4 # 100
|}.

(** [PortfolioHeatManager.adjust_position_size].  A zero portfolio value
    raises [ZeroDivisionError], caught by the [except] branch, which
    returns [proposed_size]. *)
Definition adjust_position_size (h : PortfolioHeatManager)
    (proposed_size current_heat portfolio_value new_position_risk : Q) : Q :=
  if Qeq_bool portfolio_value 0 then proposed_size
  else
    let new_heat := current_heat + new_position_risk / portfolio_value in
    if Qle_bool (max_heat_pct h) new_heat then 0
    else if Qle_bool (warning_heat_pct h) new_heat then proposed_size * (1 # 2)
    else proposed_size.

End PositionSizing.

(* ------------------------------------------------------------------ *)
(** ** backend/daily_risk_manager.py *)

Module DailyRisk.

(** [date.today()] is passed to each method as a day number.
    [breach_logs] counts the [logger.error("TRADING HALTED ...")] lines. *)
Record DailyRiskManager := {
  max_daily_loss_percent : Q;
  today : Z;
  starting_portfolio_value : option Q;
  current_portfolio_value : option Q;
  daily_pnl : Q;
  trading_halted : bool;
  halt_reason : option string;
  breach_logs : nat
}.

Definition init (max_loss : Q) (day : Z) : DailyRiskManager := {|
  max_daily_loss_percent := max_loss;
  today := day;
  starting_portfolio_value := None;
  current_portfolio_value := None;
  daily_pnl := 0;
  trading_halted := false;
  halt_reason := None;
  breach_logs := 0
|}.

Definition reset_daily (day : Z) (s : DailyRiskManager) : DailyRiskManager :=
  if negb (Z.eqb day (today s)) then
    {| max_daily_loss_percent := max_daily_loss_percent s;
       today := day;
       starting_portfolio_value := None;
       current_portfolio_value := None;
       daily_pnl := 0;
       trading_halted := false;
       halt_reason := None;
       breach_logs := breach_logs s |}
  else s.

(** The text of the halt reason without its formatted numbers. *)
Definition limit_reason : string := "Daily loss limit reached".

Definition update_portfolio_value (day : Z) (current_value : Q) (s0 : DailyRiskManager)
    : bool * DailyRiskManager :=
  let s := reset_daily day s0 in
  let start :=
    match starting_portfolio_value s with
    | None => Some current_value
    | Some v => Some v
    end in
  let s := {| max_daily_loss_percent := max_daily_loss_percent s;
              today := today s;
              starting_portfolio_value := start;
              current_portfolio_value := Some current_value;
              daily_pnl := daily_pnl s;
              trading_halted := trading_halted s;
              halt_reason := halt_reason s;
              breach_logs := breach_logs s |} in
  match start with
  | Some st =>
      if truthy_q (Some st) then
        let pnl := current_value - st in
        let daily_pnl_percent := (pnl / st) * 100 in
        let s := {| max_daily_loss_percent := max_daily_loss_percent s;
                    today := today s;
                    starting_portfolio_value := start;
                    current_portfolio_value := Some current_value;
                    daily_pnl := pnl;
                    trading_halted := trading_halted s;
                    halt_reason := halt_reason s;
                    breach_logs := breach_logs s |} in
        if Qle_bool daily_pnl_percent (- (max_daily_loss_percent s * 100)) then
          if negb (trading_halted s) then
            (false, {| max_daily_loss_percent := max_daily_loss_percent s;
                       today := today s;
                       starting_portfolio_value := start;
                       current_portfolio_value := Some current_value;
                       daily_pnl := pnl;
                       trading_halted := true;
                       halt_reason := Some limit_reason;
                       breach_logs := S (breach_logs s) |})
          else (false, s)
        else (true, s)
      else (true, s)
  | None => (true, s)
  end.

Definition can_trade (day : Z) (s0 : DailyRiskManager)
    : (bool * option string) * DailyRiskManager :=
  let s := reset_daily day s0 in
  if trading_halted s then ((false, halt_reason s), s) else ((true, None), s).

Definition resume_trading (s : DailyRiskManager) : DailyRiskManager :=
  {| max_daily_loss_percent := max_daily_loss_percent s;
     today := today s;
     starting_portfolio_value := starting_portfolio_value s;
     current_portfolio_value := current_portfolio_value s;
     daily_pnl := daily_pnl s;
     trading_halted := false;
     halt_reason := None;
     breach_logs := breach_logs s |}.

(** Calls made on the manager during one trading day. *)
Inductive call := Update (v : Q) | CanTrade.

Definition step (day : Z) (s : DailyRiskManager) (c : call) : DailyRiskManager :=
  match c with
  | Update v => snd (update_portfolio_value day v s)
  | CanTrade => snd (can_trade day s)
  end.

Definition run (day : Z) (calls : list call) (s : DailyRiskManager) : DailyRiskManager :=
  fold_left (step day) calls s.

End DailyRisk.

(* ------------------------------------------------------------------ *)
(** ** backend/position_manager.py and backend/strategy_executor.py *)

Module Executor.

Record Position := {
  p_symbol : string;
  p_strategy_id : string;
  p_shares : Q;
  p_entry_price : Q;
  p_stop_loss : option Q;
  p_take_profit : option Q
}.

Definition unrealized_pnl (p : Position) (current_price : Q) : Q :=
  (current_price - p_entry_price p) * p_shares p.

(** [PositionManager.check_stop_loss] *)
Definition check_stop_loss (current_price : Q) (p : Position) : bool :=
  match p_stop_loss p with
  | None => false
  | Some stop_loss => Qle_bool current_price stop_loss
  end.

(** [PositionManager.check_take_profit] *)
Definition check_take_profit (current_price : Q) (p : Position) : bool :=
  match p_take_profit p with
  | None => false
  | Some take_profit => Qle_bool take_profit current_price
  end.

(** Entries of [trade_history.log_trade] made by the executor. *)
Inductive trade :=
  | Bought (strategy_id symbol : string) (shares price : Q)
  | Sold (strategy_id symbol : string) (shares price : Q) (reason : string) (pnl : Q).

(** The shared [position_manager] ({strategy_id: {symbol: Position}}),
    keyed here by the pair, and the trade history. *)
Record world := {
  positions : gmap (string * string) Position;
  history : list trade
}.

(** How the calls of [_execute_sell] after the position lookup end, all
    inside its [try]: every call returns ([SellDone]); [place_order], the
    hold-duration computation or [trade_history.log_trade] raises, before
    any trade is logged ([SellRaisesBeforeLog]); or the notification (or
    [remove_position], before it drops the entry) raises after the trade
    was logged ([SellRaisesAfterLog]).  In each raising case the [except]
    branch returns [False] with the position still held. *)
Inductive sell_outcome := SellDone | SellRaisesBeforeLog | SellRaisesAfterLog.

Section Worker.

(** [self.trading_engine and self.trading_engine.api] *)
Variable engine : bool.

(** The part of [_execute_buy] between the engine check and the order:
    account lookup, 1% sizing, ATR stop and the portfolio risk check.
    [Some (shares, stop_loss)] when the buy goes through. *)
Variable buy_plan : string -> string -> Q -> option (Q * Q).

(** The outcome of the broker, history and notification calls of
    [_execute_sell] for a strategy, symbol, price and reason. *)
Variable sell_steps : string -> string -> Q -> string -> sell_outcome.

Definition has_position (w : world) (sid sym : string) : bool :=
  bool_decide (is_Some (positions w !! (sid, sym))).

Definition execute_buy (sid sym : string) (current_price : Q) (w : world) : bool * world :=
  if negb engine then (false, w)
  else
    match buy_plan sid sym current_price with
    | None => (false, w)
    | Some (shares, stop_loss) =>
        let p := {| p_symbol := sym; p_strategy_id := sid; p_shares := shares;
                    p_entry_price := current_price; p_stop_loss := Some stop_loss;
                    p_take_profit := None |} in
        (true, {| positions := <[(sid, sym) := p]> (positions w);
                  history := history w ++ [Bought sid sym shares current_price] |})
    end.

Definition execute_sell (sid sym : string) (current_price : Q) (reason : string) (w : world)
    : bool * world :=
  if negb engine then (false, w)
  else
    match positions w !! (sid, sym) with
    | None => (false, w)
    | Some p =>
        let pnl := unrealized_pnl p current_price in
        let logged := history w ++ [Sold sid sym (p_shares p) current_price reason pnl] in
        (* [unrealized_pnl_percent] divides by the entry price before the
           trade is logged: a [ZeroDivisionError] *)
        if Qeq_bool (p_entry_price p) 0 then (false, w)
        else
          match sell_steps sid sym current_price reason with
          | SellRaisesBeforeLog => (false, w)
          | SellRaisesAfterLog => (false, {| positions := positions w; history := logged |})
          | SellDone => (true, {| positions := delete (sid, sym) (positions w); history := logged |})
          end
    end.

(** Body of the [for symbol in symbols] loop of [_execute_strategy] once
    data was fetched: [signal] is the string returned by [generate_signal]
    and [current_price] the last close. *)
Definition process_symbol (sid sym : string) (signal : string) (current_price : Q) (w0 : world)
    : world :=
  let w :=
    if String.eqb signal "BUY" then
      if negb (has_position w0 sid sym) then snd (execute_buy sid sym current_price w0) else w0
    else if String.eqb signal "SELL" then
      if has_position w0 sid sym then snd (execute_sell sid sym current_price "signal" w0) else w0
    else w0 in
  match positions w !! (sid, sym) with
  | Some p =>
      if check_stop_loss current_price p then
        snd (execute_sell sid sym current_price "stop_loss" w)
      else if check_take_profit current_price p then
        snd (execute_sell sid sym current_price "take_profit" w)
      else w
  | None => w
  end.

End Worker.

Definition is_buy (t : trade) : bool :=
  match t with Bought _ _ _ _ => true | Sold _ _ _ _ _ _ => false end.

End Executor.

(* ------------------------------------------------------------------ *)
(** ** core/order_manager.py *)

Module Orders.

Inductive OrderType := MARKET | LIMIT | STOP | STOP_LIMIT | TRAILING_STOP.
Inductive OrderSide := BUY | SELL.
Inductive OrderStatus :=
  PENDING | SUBMITTED | PARTIALLY_FILLED | FILLED | CANCELED | REJECTED | EXPIRED.
Inductive TimeInForce := DAY | GTC | IOC | FOK.
Inductive TradingMode := LIVE | PAPER | BACKTEST | ANALYSIS.

Definition OrderType_eqb (a b : OrderType) : bool :=
  match a, b with
  | MARKET, MARKET | LIMIT, LIMIT | STOP, STOP | STOP_LIMIT, STOP_LIMIT
  | TRAILING_STOP, TRAILING_STOP => true
  | _, _ => false
  end.

Definition OrderStatus_eqb (a b : OrderStatus) : bool :=
  match a, b with
  | PENDING, PENDING | SUBMITTED, SUBMITTED | PARTIALLY_FILLED, PARTIALLY_FILLED
  | FILLED, FILLED | CANCELED, CANCELED | REJECTED, REJECTED | EXPIRED, EXPIRED => true
  | _, _ => false
  end.

Definition TradingMode_eqb (a b : TradingMode) : bool :=
  match a, b with
  | LIVE, LIVE | PAPER, PAPER | BACKTEST, BACKTEST | ANALYSIS, ANALYSIS => true
  | _, _ => false
  end.

(** Timestamps ([datetime.now()]) are integers supplied by the caller. *)
Record Order := {
  symbol : string;
  side : OrderSide;
  quantity : Q;
  order_type : OrderType;
  status : OrderStatus;
  limit_price : option Q;
  stop_price : option Q;
  time_in_force : TimeInForce;
  order_id : option string;
  client_order_id : option string;
  filled_quantity : Q;
  filled_avg_price : option Q;
  submitted_at : option Z;
  filled_at : option Z;
  canceled_at : option Z;
  created_at : Z;
  error_message : option string
}.

(** [self.orders] and the parts of [OrderManager] the methods read;
    [alpaca_api] records whether the REST client was initialised. *)
Record OrderManager := {
  trading_mode : TradingMode;
  orders : gmap string Order;
  alpaca_api : bool
}.

Definition with_orders (m : OrderManager) (os : gmap string Order) : OrderManager :=
  {| trading_mode := trading_mode m; orders := os; alpaca_api := alpaca_api m |}.

(** [create_order]; [cid] is the client id built from the timestamp
    ([f"alphaflow_{ms}"]). *)
Definition create_order (m : OrderManager) (now : Z) (cid : string)
    (sym : string) (sd : OrderSide) (qty : Q) (ot : OrderType)
    (lp sp : option Q) (tif : TimeInForce) : option Order * OrderManager :=
  if OrderType_eqb ot LIMIT && bool_decide (lp = None) then (None, m)
  else if (OrderType_eqb ot STOP || OrderType_eqb ot STOP_LIMIT) && bool_decide (sp = None)
  then (None, m)
  else
    let o := {| symbol := sym; side := sd; quantity := qty; order_type := ot;
                status := PENDING; limit_price := lp; stop_price := sp;
                time_in_force := tif; order_id := None; client_order_id := Some cid;
                filled_quantity := 0; filled_avg_price := None;
                submitted_at := None; filled_at := None; canceled_at := None;
                created_at := now; error_message := None |} in
    (Some o, with_orders m (<[cid := o]> (orders m))).

(** [_simulate_backtest_fill] *)
Definition simulate_backtest_fill (now : Z) (o : Order) : Order :=
  {| symbol := symbol o; side := side o; quantity := quantity o; order_type := order_type o;
     status := FILLED; limit_price := limit_price o; stop_price := stop_price o;
     time_in_force := time_in_force o; order_id := order_id o;
     client_order_id := client_order_id o;
     filled_quantity := quantity o;
     filled_avg_price := Some (match limit_price o with
                               | Some l => if truthy_q (Some l) then l else 100
                               | None => 100
                               end);
     submitted_at := Some now; filled_at := Some now; canceled_at := canceled_at o;
     created_at := created_at o; error_message := error_message o |}.

Definition with_status (o : Order) (st : OrderStatus) (oid : option string)
    (sub can : option Z) (err : option string) : Order :=
  {| symbol := symbol o; side := side o; quantity := quantity o; order_type := order_type o;
     status := st; limit_price := limit_price o; stop_price := stop_price o;
     time_in_force := time_in_force o; order_id := oid;
     client_order_id := client_order_id o; filled_quantity := filled_quantity o;
     filled_avg_price := filled_avg_price o; submitted_at := sub;
     filled_at := filled_at o; canceled_at := can; created_at := created_at o;
     error_message := err |}.

(** [submit_order] on the order stored under [cid] (the object passed in is
    the one held in [self.orders]).  [broker] is the Alpaca answer:
    [inl id] on acceptance, [inr msg] when it raises. *)
Definition submit_order (m : OrderManager) (now : Z) (cid : string)
    (broker : string + string) : bool * OrderManager :=
  match orders m !! cid with
  | None => (false, m)
  | Some o =>
    if TradingMode_eqb (trading_mode m) ANALYSIS then (false, m)
    else if TradingMode_eqb (trading_mode m) BACKTEST then
      (true, with_orders m (<[cid := simulate_backtest_fill now o]> (orders m)))
    else if negb (alpaca_api m) then
      (false, with_orders m (<[cid := with_status o REJECTED (order_id o) (submitted_at o)
                                       (canceled_at o) (Some "API not initialized")]> (orders m)))
    else
      match broker with
      | inl oid =>
          (true, with_orders m (<[cid := with_status o SUBMITTED (Some oid) (Some now)
                                           (canceled_at o) (error_message o)]> (orders m)))
      | inr msg =>
          (false, with_orders m (<[cid := with_status o REJECTED (order_id o) (submitted_at o)
                                            (canceled_at o) (Some msg)]> (orders m)))
      end
  end.

Definition truthy_str (o : option string) : bool :=
  match o with Some s => negb (String.eqb s "") | None => false end.

(** [cancel_order]; [broker_ok] says whether [alpaca_api.cancel_order]
    returned without raising. *)
Definition cancel_order (m : OrderManager) (now : Z) (cid : string) (broker_ok : bool)
    : bool * OrderManager :=
  match orders m !! cid with
  | None => (false, m)
  | Some o =>
    if existsb (OrderStatus_eqb (status o)) [FILLED; CANCELED; REJECTED] then (false, m)
    else
      let canceled := with_status o CANCELED (order_id o) (submitted_at o) (Some now)
                                  (error_message o) in
      if TradingMode_eqb (trading_mode m) BACKTEST then
        (true, with_orders m (<[cid := canceled]> (orders m)))
      else if alpaca_api m && truthy_str (order_id o) then
        if broker_ok then (true, with_orders m (<[cid := canceled]> (orders m)))
        else (false, m)
      else (false, m)
  end.

(** [self.orders.get(cid)] *)
Definition stored_order (m : OrderManager) (cid : string) : option Order :=
  orders m !! cid.

End Orders.

(* ------------------------------------------------------------------ *)
(** ** core/portfolio_manager.py *)

Module Ledger.

(** [data_structures.Position] *)
Record Position := {
  symbol : string;
  quantity : Z;
  entry_price : Q;
  current_price : Q;
  strategy : string;
  stop_loss : option Q;
  take_profit : option Q
}.

(** [data_structures.TradeRecord] (the fields [close_position] sets). *)
Record TradeRecord := {
  t_symbol : string;
  t_action : string;
  t_entry_price : Q;
  t_quantity : Z;
  t_strategy : string;
  t_exit_price : option Q;
  t_pnl : Q;
  t_pnl_percent : Q;
  t_status : string
}.

Record PortfolioManager := {
  cash : Q;
  positions : gmap string Position;
  trade_history : list TradeRecord
}.

Definition with_quantity (p : Position) (q : Z) : Position :=
  {| symbol := symbol p; quantity := q; entry_price := entry_price p;
     current_price := current_price p; strategy := strategy p;
     stop_loss := stop_loss p; take_profit := take_profit p |}.

(** [close_position(symbol, price, quantity=None)]; [None] as result is the
    "no position" branch. *)
Definition close_position (pm : PortfolioManager) (sym : string) (price : Q)
    (qty : option Z) : option TradeRecord * PortfolioManager :=
  match positions pm !! sym with
  | None => (None, pm)
  | Some position =>
    (* quantity or position.quantity *)
    let close_quantity :=
      match qty with
      | Some q => if Z.eqb q 0 then quantity position else q
      | None => quantity position
      end in
    (* min(close_quantity, position.quantity) *)
    let close_quantity :=
      if Z.ltb (quantity position) close_quantity then quantity position else close_quantity in
    let proceeds := inject_Z close_quantity * price in
    let cost_basis := inject_Z close_quantity * entry_price position in
    let pnl := proceeds - cost_basis in
    let pnl_percent := if Qlt_bool 0 cost_basis then (pnl / cost_basis) * 100 else 0 in
    let positions' :=
      if Z.geb close_quantity (quantity position) then delete sym (positions pm)
      else <[sym := with_quantity position (quantity position - close_quantity)]> (positions pm) in
    let trade := {| t_symbol := sym; t_action := "SELL"; t_entry_price := entry_price position;
                    t_quantity := close_quantity; t_strategy := strategy position;
                    t_exit_price := Some price; t_pnl := pnl; t_pnl_percent := pnl_percent;
                    t_status := "CLOSED" |} in
    (Some trade, {| cash := cash pm + proceeds; positions := positions';
                    trade_history := trade_history pm ++ [trade] |})
  end.

End Ledger.

(** The other methods of [PortfolioManager] (core/portfolio_manager.py). *)

Module PortfolioOps.
Import Ledger.

(** [Position.market_value] *)
Definition market_value (p : Position) : Q := inject_Z (quantity p) * current_price p.

(** [get_positions_value]: [sum(p.market_value for p in self.positions.values())].
    The sum is taken in the map's order; Python's is the dict's insertion
    order, which gives the same rational. *)
Definition get_positions_value (pm : PortfolioManager) : Q :=
  map_fold (fun _ p acc => market_value p + acc) 0 (positions pm).

Definition get_portfolio_value (pm : PortfolioManager) : Q :=
  cash pm + get_positions_value pm.

(** [get_realized_pnl]: the P&L of the trade records whose status is "CLOSED". *)
Definition get_realized_pnl (pm : PortfolioManager) : Q :=
  fold_left (fun acc t => if String.eqb (t_status t) "CLOSED" then acc + t_pnl t else acc)
    (trade_history pm) 0.

(** [add_position(symbol, quantity, price, strategy, stop_loss, take_profit)].
    [None] is the uncaught [ZeroDivisionError] of the average price when the
    new total quantity is 0.  The BUY record keeps the [TradeRecord] defaults
    (no exit price, P&L 0, status "OPEN"). *)
Definition add_position (pm : PortfolioManager) (sym : string) (qty : Z) (price : Q)
    (strat : string) (sl tp : option Q) : option (bool * PortfolioManager) :=
  let cost := inject_Z qty * price in
  if Qlt_bool (cash pm) cost then Some (false, pm)
  else
    let positions' :=
      match positions pm !! sym with
      | Some existing =>
          let total_quantity := (quantity existing + qty)%Z in
          if Z.eqb total_quantity 0 then None
          else
            let avg_price :=
              (inject_Z (quantity existing) * entry_price existing + cost)
                / inject_Z total_quantity in
            Some (<[sym := {| symbol := sym; quantity := total_quantity;
                              entry_price := avg_price; current_price := price;
                              strategy := strat;
                              (* stop_loss or existing.stop_loss *)
                              stop_loss := if truthy_q sl then sl else stop_loss existing;
                              take_profit := if truthy_q tp then tp else take_profit existing
                           |}]> (positions pm))
      | None =>
          Some (<[sym := {| symbol := sym; quantity := qty; entry_price := price;
                            current_price := price; strategy := strat;
                            stop_loss := sl; take_profit := tp |}]> (positions pm))
      end in
    match positions' with
    | None => None
    | Some ps =>
        let trade := {| t_symbol := sym; t_action := "BUY"; t_entry_price := price;
                        t_quantity := qty; t_strategy := strat; t_exit_price := None;
                        t_pnl := 0; t_pnl_percent := 0; t_status := "OPEN" |} in
        Some (true, {| cash := cash pm - cost; positions := ps;
                       trade_history := trade_history pm ++ [trade] |})
    end.

Definition with_current_price (p : Position) (c : Q) : Position :=
  {| symbol := symbol p; quantity := quantity p; entry_price := entry_price p;
     current_price := c; strategy := strategy p;
     stop_loss := stop_loss p; take_profit := take_profit p |}.

(** [update_prices(prices)]: the loop over [prices.items()]. *)
Definition update_prices (pm : PortfolioManager) (prices : gmap string Q) : PortfolioManager :=
  {| cash := cash pm;
     positions :=
       map_fold (fun sym price ps =>
                   match ps !! sym with
                   | Some p => <[sym := with_current_price p price]> ps
                   | None => ps
                   end) (positions pm) prices;
     trade_history := trade_history pm |}.

End PortfolioOps.

(* ------------------------------------------------------------------ *)
(** ** backend/position_manager.py: the nested position store *)

Module PositionStore.
Import Executor.

(** [self.positions: Dict[str, Dict[str, Position]]] *)
Abbreviation store := (gmap string (gmap string Position)).

Definition has_position (s : store) (sid sym : string) : bool :=
  match s !! sid with
  | Some inner => bool_decide (is_Some (inner !! sym))
  | None => false
  end.

(** [add_position]; returns the new [Position] and the store. *)
Definition add_position (s : store) (sid sym : string) (shares entry_price : Q)
    (stop_loss take_profit : option Q) : Position * store :=
  let position := {| p_symbol := sym; p_strategy_id := sid; p_shares := shares;
                     p_entry_price := entry_price; p_stop_loss := stop_loss;
                     p_take_profit := take_profit |} in
  let s := match s !! sid with None => <[sid := ∅]> s | Some _ => s end in
  let inner := match s !! sid with Some i => i | None => ∅ end in
  (position, <[sid := <[sym := position]> inner]> s).

(** [remove_position]: pops the position and deletes an emptied strategy dict. *)
Definition remove_position (s : store) (sid sym : string) : option Position * store :=
  if negb (has_position s sid sym) then (None, s)
  else
    match s !! sid with
    | Some inner =>
        match inner !! sym with
        | Some position =>
            let s := <[sid := delete sym inner]> s in
            if bool_decide (delete sym inner = ∅) then (Some position, delete sid s)
            else (Some position, s)
        | None => (None, s)
        end
    | None => (None, s)
    end.

Definition get_position (s : store) (sid sym : string) : option Position :=
  if negb (has_position s sid sym) then None
  else match s !! sid with Some inner => inner !! sym | None => None end.

(** [get_strategy_positions]: [self.positions.get(strategy_id, {})] *)
Definition get_strategy_positions (s : store) (sid : string) : gmap string Position :=
  match s !! sid with Some inner => inner | None => ∅ end.

(** [sum(len(positions) for positions in self.positions.values())] *)
Definition total_count (s : store) : nat :=
  map_fold (fun _ inner acc => (size inner + acc)%nat) 0%nat s.

(** [get_position_count(strategy_id=None)]; the empty string is falsy. *)
Definition get_position_count (s : store) (sid : option string) : nat :=
  match sid with
  | Some x => if String.eqb x "" then total_count s else size (get_strategy_positions s x)
  | None => total_count s
  end.

Definition clear_strategy_positions (s : store) (sid : string) : nat * store :=
  match s !! sid with
  | None => (0%nat, s)
  | Some inner => (size inner, delete sid s)
  end.

End PositionStore.

(* ------------------------------------------------------------------ *)
(** ** backend/daily_risk_manager.py: statistics and administrative halts *)

Module DailyAdmin.
Import DailyRisk.

(** [manual_halt(reason)]; it does not call [reset_daily]. *)
Definition manual_halt (reason : string) (s : DailyRiskManager) : DailyRiskManager :=
  {| max_daily_loss_percent := max_daily_loss_percent s;
     today := today s;
     starting_portfolio_value := starting_portfolio_value s;
     current_portfolio_value := current_portfolio_value s;
     daily_pnl := daily_pnl s;
     trading_halted := true;
     halt_reason := Some reason;
     breach_logs := breach_logs s |}.

(** The dictionary returned by [get_daily_stats] ([date] is the day number). *)
Record DailyStats := {
  date : Z;
  starting_value : option Q;
  current_value : option Q;
  st_daily_pnl : Q;
  daily_pnl_percent : Q;
  max_loss_limit : Q;
  st_trading_halted : bool;
  st_halt_reason : option string
}.

Definition get_daily_stats (day : Z) (s0 : DailyRiskManager) : DailyStats * DailyRiskManager :=
  let s := reset_daily day s0 in
  match starting_portfolio_value s with
  | None =>
      ({| date := today s; starting_value := None; current_value := None;
          st_daily_pnl := 0; daily_pnl_percent := 0;
          max_loss_limit := max_daily_loss_percent s * 100;
          st_trading_halted := false; st_halt_reason := None |}, s)
  | Some st =>
      let pct := if truthy_q (Some st) then (daily_pnl s / st) * 100 else 0 in
      ({| date := today s; starting_value := Some st;
          current_value := current_portfolio_value s;
          st_daily_pnl := daily_pnl s; daily_pnl_percent := pct;
          max_loss_limit := max_daily_loss_percent s * 100;
          st_trading_halted := trading_halted s; st_halt_reason := halt_reason s |}, s)
  end.

End DailyAdmin.

(* ------------------------------------------------------------------ *)
(** ** core/order_manager.py: status refresh and housekeeping *)

Module OrderAdmin.
Import Orders.

(** The order object returned by [alpaca_api.get_order], with its numeric
    fields already parsed. *)
Record AlpacaOrder := {
  a_status : string;
  a_filled_qty : option Q;
  a_filled_avg_price : option Q;
  a_filled_at : option Z
}.

(** [status_mapping.get(alpaca_order.status, OrderStatus.PENDING)] *)
Definition map_status (st : string) : OrderStatus :=
  if String.eqb st "new" then SUBMITTED
  else if String.eqb st "partially_filled" then PARTIALLY_FILLED
  else if String.eqb st "filled" then FILLED
  else if String.eqb st "canceled" then CANCELED
  else if String.eqb st "rejected" then REJECTED
  else if String.eqb st "expired" then EXPIRED
  else PENDING.

(** [update_order_status(client_order_id)]; [resp] is the broker answer,
    [None] when [get_order] raises (the error is logged). *)
Definition update_order_status (m : OrderManager) (cid : string) (resp : option AlpacaOrder)
    : OrderManager :=
  match orders m !! cid with
  | None => m
  | Some o =>
    if negb (truthy_str (order_id o)) then m
    else if negb (alpaca_api m) then m
    else
      match resp with
      | None => m
      | Some a =>
          let o' := {| symbol := symbol o; side := side o; quantity := quantity o;
                       order_type := order_type o; status := map_status (a_status a);
                       limit_price := limit_price o; stop_price := stop_price o;
                       time_in_force := time_in_force o; order_id := order_id o;
                       client_order_id := client_order_id o;
                       (* float(alpaca_order.filled_qty or 0) *)
                       filled_quantity := match a_filled_qty a with
                                          | Some q => if truthy_q (Some q) then q else 0
                                          | None => 0
                                          end;
                       filled_avg_price := if truthy_q (a_filled_avg_price a)
                                           then a_filled_avg_price a else filled_avg_price o;
                       submitted_at := submitted_at o;
                       filled_at := match a_filled_at a with
                                    | Some t => Some t
                                    | None => filled_at o
                                    end;
                       canceled_at := canceled_at o; created_at := created_at o;
                       error_message := error_message o |} in
          with_orders m (<[cid := o']> (orders m))
      end
  end.

Definition is_open (o : Order) : bool :=
  existsb (OrderStatus_eqb (status o)) [SUBMITTED; PARTIALLY_FILLED].

(** [get_open_orders], keyed by client id (the list is the dict's values). *)
Definition get_open_orders (m : OrderManager) : gmap string Order :=
  filter (fun kv => is_open kv.2 = true) (orders m).

(** [clear_old_orders(days)] at time [now] (seconds). *)
Definition clear_old_orders (m : OrderManager) (now days : Z) : OrderManager :=
  let cutoff := (now - days * 24 * 60 * 60)%Z in
  with_orders m (filter (fun kv => (Z.ltb cutoff (created_at kv.2) || is_open kv.2) = true)
                   (orders m)).

End OrderAdmin.

(* ------------------------------------------------------------------ *)
(** ** core/position_sizing.py: volatility sizing, heat and the unified sizer *)

Module Sizing.

(** Python's [int(x)] on a float: truncation toward zero. *)
Definition py_int (x : Q) : Z := Z.quot (Qnum x) (Zpos (Qden x)).

(** [VolatilityAdjustedSizing(risk_per_trade_pct).calculate_shares].  A zero
    stop distance or a zero price raises [ZeroDivisionError], caught by the
    [except] branch, which returns 1. *)
Definition calculate_shares (risk_per_trade_pct price atr portfolio_value stop_multiplier : Q)
    : Z :=
  let risk_amount := portfolio_value * risk_per_trade_pct in
  let stop_distance := stop_multiplier * atr in
  if Qeq_bool stop_distance 0 then 1%Z
  else
    let shares := py_int (risk_amount / stop_distance) in
    let shares := Z.max 1 shares in
    if Qeq_bool price 0 then 1%Z
    else
      let max_shares := py_int ((portfolio_value * (1 # 4)) / price) in
      Z.min shares max_shares.

(** [position_sizing.Position] *)
Record SPosition := {
  s_symbol : string;
  s_shares : Z;
  s_entry_price : Q;
  s_current_price : Q;
  s_stop_loss : Q;
  s_take_profit : Q
}.

(** The action strings 'STOP_TRADING', 'REDUCE_SIZE', 'NORMAL'. *)
Inductive HeatAction := STOP_TRADING | REDUCE_SIZE | NORMAL.

(** [PortfolioHeatManager.calculate_heat] *)
Definition calculate_heat (h : PositionSizing.PortfolioHeatManager)
    (open_positions : list SPosition) (portfolio_value : Q) : Q * HeatAction :=
  match open_positions with
  | [] => (0, NORMAL)
  | _ =>
    let total_risk :=
      fold_left (fun acc pos =>
                   acc + Qabs (s_entry_price pos - s_stop_loss pos) * inject_Z (s_shares pos))
                open_positions 0 in
    let heat_pct := if Qlt_bool 0 portfolio_value then total_risk / portfolio_value else 0 in
    if Qle_bool (PositionSizing.max_heat_pct h) heat_pct then (heat_pct, STOP_TRADING)
    else if Qle_bool (PositionSizing.warning_heat_pct h) heat_pct then (heat_pct, REDUCE_SIZE)
    else (heat_pct, NORMAL)
  end.

Inductive PositionSizeMethod :=
  FIXED_DOLLAR | FIXED_PERCENT | KELLY_CRITERION | VOLATILITY_ADJUSTED | RISK_PARITY.

(** [PositionSize]; the [reasoning] text is dropped. *)
Record PositionSize := {
  shares : Z;
  dollar_amount : Q;
  percent_of_portfolio : Q;
  risk_amount : Q;
  method : PositionSizeMethod
}.

(** [AdvancedPositionSizer(portfolio_value, default_method)]; its calculators
    are [KellyCriterionCalculator(fraction=0.5)],
    [VolatilityAdjustedSizing(risk_per_trade_pct=0.01)] and
    [PortfolioHeatManager()]. *)
Record AdvancedPositionSizer := {
  portfolio_value : Q;
  default_method : PositionSizeMethod
}.

(** [_kelly_method]; [None] is a [ZeroDivisionError] on a zero price. *)
Definition kelly_method (a : AdvancedPositionSizer) (price : Q) (win_rate reward_risk_ratio : option Q)
    : option Z :=
  match win_rate, reward_risk_ratio with
  | Some w, Some b =>
      let dollar_amount :=
        PositionSizing.calculate_position_size PositionSizing.default_kelly w b (portfolio_value a) in
      if Qeq_bool price 0 then None else Some (py_int (dollar_amount / price))
  | _, _ =>
      if Qeq_bool price 0 then None else Some (py_int ((portfolio_value a * (1 # 10)) / price))
  end.

Definition volatility_method (a : AdvancedPositionSizer) (price atr : Q) : Z :=
  calculate_shares (1 # 100) price atr (portfolio_value a) 2.

Definition fixed_percent_method (a : AdvancedPositionSizer) (price percent : Q) : option Z :=
  if Qeq_bool price 0 then None else Some (py_int ((portfolio_value a * percent) / price)).

Definition fixed_dollar_method (price amount : Q) : option Z :=
  if Qeq_bool price 0 then None else Some (py_int (amount / price)).

(** [AdvancedPositionSizer.calculate_position_size].  Inside the [try],
    [None] for the shares is an exception raised before the heat check: a
    zero price, or the Kelly reasoning f-string formatting a [None] win rate
    or ratio ([TypeError]).  The [except] branch divides by the portfolio
    value again, so with a zero portfolio value the result is [None]: the
    [ZeroDivisionError] escapes. *)
Definition calculate_position_size (a : AdvancedPositionSizer) (price stop_loss atr : Q)
    (method0 : option PositionSizeMethod) (win_rate reward_risk_ratio : option Q)
    (open_positions : list SPosition) : option PositionSize :=
  let method := match method0 with Some m => m | None => default_method a end in
  let pv := portfolio_value a in
  let fallback :=
    if Qeq_bool pv 0 then None
    else Some {| shares := 1; dollar_amount := price; percent_of_portfolio := price / pv;
                 risk_amount := Qabs (price - stop_loss); method := method |} in
  let shares0 :=
    match method with
    | KELLY_CRITERION =>
        match kelly_method a price win_rate reward_risk_ratio with
        | Some s =>
            match win_rate, reward_risk_ratio with
            | Some _, Some _ => Some s
            | _, _ => None
            end
        | None => None
        end
    | VOLATILITY_ADJUSTED => Some (volatility_method a price atr)
    | FIXED_PERCENT => fixed_percent_method a price (1 # 10)
    | FIXED_DOLLAR => fixed_dollar_method price 10000
    | RISK_PARITY => Some (volatility_method a price atr)
    end in
  match shares0 with
  | None => fallback
  | Some s =>
    let dollar := inject_Z s * price in
    if Qeq_bool pv 0 then fallback
    else
      let percent := dollar / pv in
      let risk_per_share := Qabs (price - stop_loss) in
      let risk := risk_per_share * inject_Z s in
      match snd (calculate_heat PositionSizing.default_heat_manager open_positions pv) with
      | STOP_TRADING =>
          Some {| shares := 0; dollar_amount := 0; percent_of_portfolio := percent;
                  risk_amount := risk; method := method |}
      | REDUCE_SIZE =>
          let s2 := Z.div s 2 in
          Some {| shares := s2; dollar_amount := inject_Z s2 * price;
                  percent_of_portfolio := percent;
                  risk_amount := risk_per_share * inject_Z s2; method := method |}
      | NORMAL =>
          Some {| shares := s; dollar_amount := dollar; percent_of_portfolio := percent;
                  risk_amount := risk; method := method |}
      end
  end.

End Sizing.

(* ------------------------------------------------------------------ *)
(** ** Formulas stated by the spec, compared with the code below *)

Module SpecFormulas.
Import PortfolioRisk.

(** The spec's formula: Σ |current − stop| × shares over the positions
    whose stop is truthy. *)
Definition stop_risk (p : pos_dict) : Q :=
  match pd_stop_loss p with
  | Some s => Qabs (price_of p - s) * pd_shares p
  | None => 0
  end.

Definition stop_risk_sum (positions : list pos_dict) : Q :=
  fold_right (fun p acc => stop_risk p + acc) 0
    (List.filter (fun p => truthy_q (pd_stop_loss p)) positions).

End SpecFormulas.

(* ------------------------------------------------------------------ *)
(** ** Concrete inputs used by the examples below *)

Module Inputs.

Definition heat_positions : list PortfolioRisk.pos_dict :=
  [ {| PortfolioRisk.pd_symbol := "A"; PortfolioRisk.pd_shares := 10;
       PortfolioRisk.pd_entry_price := 100; PortfolioRisk.pd_current_price := None;
       PortfolioRisk.pd_stop_loss := Some 95 |};
    {| PortfolioRisk.pd_symbol := "B"; PortfolioRisk.pd_shares := 10;
       PortfolioRisk.pd_entry_price := 100; PortfolioRisk.pd_current_price := Some 110;
       PortfolioRisk.pd_stop_loss := Some 0 |} ].

(** A correlation matrix with no entries (every lookup a [KeyError]). *)
Definition no_corr : PortfolioRisk.corr_matrix := fun _ _ => PortfolioRisk.Missing.

(** A manager (2% limit) after the first update of day 1 at $100,000. *)
Definition day_start : DailyRisk.DailyRiskManager :=
  snd (DailyRisk.update_portfolio_value 1 100000 (DailyRisk.init (2 # 100) 1)).

(** A recovery above the starting value, then a [can_trade] check. *)
Definition recovery_calls : list DailyRisk.call :=
  [DailyRisk.Update 101000; DailyRisk.CanTrade].

(** A long position of strategy "s1": 10 AAPL entered at $100, stop $95. *)
Definition pos100 : Executor.Position := {|
  Executor.p_symbol := "AAPL"; Executor.p_strategy_id := "s1"; Executor.p_shares := 10;
  Executor.p_entry_price := 100; Executor.p_stop_loss := Some 95;
  Executor.p_take_profit := None |}.

Definition world0 : Executor.world := {|
  Executor.positions := {[ ("s1", "AAPL") := pos100 ]};
  Executor.history := [] |}.

(** A buy path that never goes through. *)
Definition no_buy : string -> string -> Q -> option (Q * Q) := fun _ _ _ => None.

(** Sales whose broker, history and notification calls all return. *)
Definition sells_ok : string -> string -> Q -> string -> Executor.sell_outcome :=
  fun _ _ _ _ => Executor.SellDone.

(** The broker refuses every order. *)
Definition broker_down : string -> string -> Q -> string -> Executor.sell_outcome :=
  fun _ _ _ _ => Executor.SellRaisesBeforeLog.

(** The broker refuses the sale placed on the signal only. *)
Definition signal_sale_fails : string -> string -> Q -> string -> Executor.sell_outcome :=
  fun _ _ _ reason =>
    if String.eqb reason "signal" then Executor.SellRaisesBeforeLog else Executor.SellDone.

(** An order of 10 AAPL shares in a given state, created at time 0. *)
Definition mk_order (ot : Orders.OrderType) (st : Orders.OrderStatus)
    (lp sp : option Q) (oid : option string) : Orders.Order := {|
  Orders.symbol := "AAPL"; Orders.side := Orders.BUY; Orders.quantity := 10;
  Orders.order_type := ot; Orders.status := st; Orders.limit_price := lp;
  Orders.stop_price := sp; Orders.time_in_force := Orders.DAY; Orders.order_id := oid;
  Orders.client_order_id := Some "alphaflow_1"; Orders.filled_quantity := 0;
  Orders.filled_avg_price := None; Orders.submitted_at := None; Orders.filled_at := None;
  Orders.canceled_at := None; Orders.created_at := 0; Orders.error_message := None |}.

Definition manager_with (mode : Orders.TradingMode) (api : bool) (o : Orders.Order)
    : Orders.OrderManager := {|
  Orders.trading_mode := mode;
  Orders.orders := {[ "alphaflow_1" := o ]};
  Orders.alpaca_api := api |}.

Definition empty_manager (mode : Orders.TradingMode) : Orders.OrderManager := {|
  Orders.trading_mode := mode; Orders.orders := ∅; Orders.alpaca_api := false |}.

(** A portfolio holding 10 AAPL bought at $100. *)
Definition aapl10 : Ledger.Position := {|
  Ledger.symbol := "AAPL"; Ledger.quantity := 10; Ledger.entry_price := 100;
  Ledger.current_price := 100; Ledger.strategy := "momentum";
  Ledger.stop_loss := None; Ledger.take_profit := None |}.

Definition pm0 : Ledger.PortfolioManager := {|
  Ledger.cash := 99000; Ledger.positions := {[ "AAPL" := aapl10 ]};
  Ledger.trade_history := [] |}.

(** A broker answer whose status ("accepted") is not in [status_mapping]. *)
Definition accepted_reply : OrderAdmin.AlpacaOrder := {|
  OrderAdmin.a_status := "accepted"; OrderAdmin.a_filled_qty := None;
  OrderAdmin.a_filled_avg_price := None; OrderAdmin.a_filled_at := None |}.

(** A sizer over a $100,000 portfolio. *)
Definition sizer100k : Sizing.AdvancedPositionSizer := {|
  Sizing.portfolio_value := 100000; Sizing.default_method := Sizing.VOLATILITY_ADJUSTED |}.

(** 100 shares entered at $100 with a stop at $40: $6,000 at risk. *)
Definition hot_positions : list Sizing.SPosition :=
  [ {| Sizing.s_symbol := "X"; Sizing.s_shares := 100; Sizing.s_entry_price := 100;
       Sizing.s_current_price := 100; Sizing.s_stop_loss := 40;
       Sizing.s_take_profit := 120 |} ].

End Inputs.

(* ================================================================== *)
(** * Properties *)

(** ** Boolean comparisons on [Q] *)

Lemma Qlt_bool_iff (x y : Q) : Qlt_bool x y = true <-> x < y.
Proof.
  unfold Qlt_bool. rewrite negb_true_iff. split.
  - intros H. apply Qnot_le_lt. intros Hle. apply Qle_bool_iff in Hle. congruence.
  - intros H. destruct (Qle_bool y x) eqn:E; [|reflexivity].
    apply Qle_bool_iff in E. exfalso. apply (Qlt_not_le x y); assumption.
Qed.

Lemma Qlt_bool_false (x y : Q) : Qlt_bool x y = false <-> y <= x.
Proof.
  unfold Qlt_bool. rewrite negb_false_iff. apply Qle_bool_iff.
Qed.

Lemma Qle_bool_false (x y : Q) : Qle_bool x y = false <-> y < x.
Proof.
  split.
  - intros H. apply Qnot_le_lt. intros Hle. apply Qle_bool_iff in Hle. congruence.
  - intros H. destruct (Qle_bool x y) eqn:E; [|reflexivity].
    apply Qle_bool_iff in E. exfalso. apply (Qlt_not_le y x); assumption.
Qed.

Lemma Qeq_bool_pos_false (x : Q) : 0 < x -> Qeq_bool x 0 = false.
Proof.
  intros H. destruct (Qeq_bool x 0) eqn:E; [|reflexivity].
  apply Qeq_bool_iff in E. rewrite E in H. discriminate.
Qed.

Ltac qcase H :=
  match type of H with
  | Qlt_bool _ _ = true => apply Qlt_bool_iff in H
  | Qlt_bool _ _ = false => apply Qlt_bool_false in H
  | Qle_bool _ _ = true => apply Qle_bool_iff in H
  | Qle_bool _ _ = false => apply Qle_bool_false in H
  end.

(** ** Portfolio heat *)

Module HeatFacts.
Import PortfolioRisk SpecFormulas.

Lemma heat_step_falsy (acc : Q) (p : pos_dict) :
  truthy_q (pd_stop_loss p) = false -> heat_step acc p = acc.
Proof. intros H. unfold heat_step. rewrite H. reflexivity. Qed.

Lemma heat_step_truthy (acc : Q) (p : pos_dict) :
  truthy_q (pd_stop_loss p) = true -> heat_step acc p == acc + stop_risk p.
Proof.
  intros H. unfold heat_step, stop_risk. rewrite H. simpl.
  destruct (pd_stop_loss p); [reflexivity | discriminate].
Qed.

Lemma fold_heat_step (positions : list pos_dict) (acc : Q) :
  fold_left heat_step positions acc == acc + stop_risk_sum positions.
Proof.
  revert acc. induction positions as [|p ps IH]; intros acc;
    unfold stop_risk_sum; cbn [fold_left fold_right List.filter].
  - ring.
  - destruct (truthy_q (pd_stop_loss p)) eqn:E; cbn [fold_right].
    + rewrite IH. rewrite (heat_step_truthy acc p E).
      unfold stop_risk_sum. ring.
    + rewrite (heat_step_falsy acc p E). rewrite IH. reflexivity.
Qed.

Lemma fold_heat_skip (ps1 ps2 : list pos_dict) (p : pos_dict) :
  truthy_q (pd_stop_loss p) = false ->
  fold_left heat_step (ps1 ++ p :: ps2) 0 = fold_left heat_step (ps1 ++ ps2) 0.
Proof.
  intros H. rewrite !fold_left_app. simpl. rewrite heat_step_falsy by exact H. reflexivity.
Qed.

End HeatFacts.

(** ** C10: portfolio heat counts only positions with a truthy stop *)

(** C10. For a positive portfolio value, [calculate_portfolio_heat] equals
    the sum of |current price − stop| × shares over the positions whose
    [stop_loss] is truthy, divided by the portfolio value; and a position
    whose stop is [None] or [0] can be removed from the list without
    changing the heat check (so it never blocks heat-based admission). *)
Theorem portfolio_heat_formula (positions : list PortfolioRisk.pos_dict) (portfolio_value : Q)
    (Hpv : 0 < portfolio_value) :
  PortfolioRisk.calculate_portfolio_heat positions portfolio_value
    == SpecFormulas.stop_risk_sum positions / portfolio_value
  /\ (forall ps1 p ps2 m,
        positions = ps1 ++ p :: ps2 ->
        truthy_q (PortfolioRisk.pd_stop_loss p) = false ->
        PortfolioRisk.calculate_portfolio_heat positions portfolio_value
          = PortfolioRisk.calculate_portfolio_heat (ps1 ++ ps2) portfolio_value
        /\ PortfolioRisk.check_portfolio_heat_limit m positions portfolio_value
          = PortfolioRisk.check_portfolio_heat_limit m (ps1 ++ ps2) portfolio_value).
Proof.
  assert (Hb : Qlt_bool 0 portfolio_value = true) by (apply Qlt_bool_iff; exact Hpv).
  split.
  - unfold PortfolioRisk.calculate_portfolio_heat. rewrite Hb.
    rewrite HeatFacts.fold_heat_step. apply Qdiv_comp; [ring | reflexivity].
  - intros ps1 p ps2 m -> Hp.
    assert (E : PortfolioRisk.calculate_portfolio_heat (ps1 ++ p :: ps2) portfolio_value
                = PortfolioRisk.calculate_portfolio_heat (ps1 ++ ps2) portfolio_value).
    { unfold PortfolioRisk.calculate_portfolio_heat.
      rewrite HeatFacts.fold_heat_skip by exact Hp. reflexivity. }
    split; [exact E|].
    unfold PortfolioRisk.check_portfolio_heat_limit. rewrite E. reflexivity.
Qed.

Example heat_example :
  PortfolioRisk.calculate_portfolio_heat
    [ {| PortfolioRisk.pd_symbol := "A"; PortfolioRisk.pd_shares := 10;
         PortfolioRisk.pd_entry_price := 100; PortfolioRisk.pd_current_price := None;
         PortfolioRisk.pd_stop_loss := Some 95 |};
      {| PortfolioRisk.pd_symbol := "B"; PortfolioRisk.pd_shares := 10;
         PortfolioRisk.pd_entry_price := 100; PortfolioRisk.pd_current_price := Some 110;
         PortfolioRisk.pd_stop_loss := None |} ] 1000 == 5 # 100.
Proof. reflexivity. Qed.

Lemma portfolio_heat_formula_witness :
  0 < 1000 /\
  PortfolioRisk.calculate_portfolio_heat Inputs.heat_positions 1000
    == SpecFormulas.stop_risk_sum Inputs.heat_positions / 1000.
Proof.
  split; [reflexivity|].
  apply (portfolio_heat_formula Inputs.heat_positions 1000). reflexivity.
Defined.

(** ** C1: heat-based admission *)

(** C1 fails as stated: with the default [PortfolioRiskManager] (heat limit
    25%), a candidate that brings projected heat to 9.9% of the portfolio,
    above the 6% [maxHeat] of the claim, is approved. *)
Lemma heat_cap_counterexample :
  6 # 100 <= PortfolioRisk.calculate_portfolio_heat
               [PortfolioRisk.hypothetical_position "AAPL" 10000 1 100] 100000
  /\ PortfolioRisk.can_open_new_position PortfolioRisk.default_manager Inputs.no_corr
       "AAPL" 10000 1 100 [] 100000 = Some true.
Proof. split; vm_compute; [discriminate | reflexivity]. Qed.

(** At exactly the limit the candidate is still approved ([<=] in
    [check_portfolio_heat_limit]). *)
Example heat_at_limit_approved :
  PortfolioRisk.calculate_portfolio_heat
    [PortfolioRisk.hypothetical_position "AAPL" 50000 50 100] 100000 == 25 # 100
  /\ PortfolioRisk.can_open_new_position
       {| PortfolioRisk.max_portfolio_heat := 25 # 100;
          PortfolioRisk.max_correlated_exposure := 1;
          PortfolioRisk.correlation_threshold := 7 # 10 |} Inputs.no_corr
       "AAPL" 50000 50 100 [] 100000 = Some true.
Proof. split; vm_compute; reflexivity. Qed.

(** C1 (amended). [PortfolioHeatManager.adjust_position_size] (defaults 6%
    and 4%), for a positive portfolio value: if the projected heat
    [current_heat + new_position_risk / portfolio_value] reaches
    [max_heat_pct] it returns 0; otherwise, if it reaches
    [warning_heat_pct], it returns half the proposed size once, with no
    re-check; otherwise the proposed size.  [can_open_new_position] uses its
    own limit [max_portfolio_heat] (default 25%) and approves only when the
    projected heat including the candidate is at most that limit (equality
    is approved). *)
Theorem heat_admission (h : PositionSizing.PortfolioHeatManager)
    (m : PortfolioRisk.PortfolioRiskManager) (corr : PortfolioRisk.corr_matrix)
    (proposed_size current_heat portfolio_value new_position_risk : Q)
    (Hpv : 0 < portfolio_value)
    (symbol : string) (position_value stop_loss_price entry_price : Q)
    (existing_positions : list PortfolioRisk.pos_dict) :
  let new_heat := current_heat + new_position_risk / portfolio_value in
  let adjusted := PositionSizing.adjust_position_size h proposed_size current_heat
                    portfolio_value new_position_risk in
  (PositionSizing.max_heat_pct h <= new_heat -> adjusted = 0)
  /\ (new_heat < PositionSizing.max_heat_pct h ->
      PositionSizing.warning_heat_pct h <= new_heat -> adjusted = proposed_size * (1 # 2))
  /\ (new_heat < PositionSizing.max_heat_pct h ->
      new_heat < PositionSizing.warning_heat_pct h -> adjusted = proposed_size)
  /\ (PortfolioRisk.can_open_new_position m corr symbol position_value stop_loss_price
        entry_price existing_positions portfolio_value = Some true ->
      PortfolioRisk.calculate_portfolio_heat
        (existing_positions ++
           [PortfolioRisk.hypothetical_position symbol position_value stop_loss_price entry_price])
        portfolio_value <= PortfolioRisk.max_portfolio_heat m).
Proof.
  intros new_heat adjusted. unfold adjusted, PositionSizing.adjust_position_size.
  rewrite (Qeq_bool_pos_false _ Hpv). fold new_heat.
  split; [|split; [|split]].
  - intros H. apply Qle_bool_iff in H. rewrite H. reflexivity.
  - intros H1 H2. apply Qle_bool_false in H1. apply Qle_bool_iff in H2.
    rewrite H1, H2. reflexivity.
  - intros H1 H2. apply Qle_bool_false in H1. apply Qle_bool_false in H2.
    rewrite H1, H2. reflexivity.
  - unfold PortfolioRisk.can_open_new_position.
    destruct (Qeq_bool entry_price 0); [discriminate|].
    unfold PortfolioRisk.check_portfolio_heat_limit.
    destruct (Qle_bool _ (PortfolioRisk.max_portfolio_heat m)) eqn:E; cbn.
    + intros _. apply Qle_bool_iff in E. exact E.
    + discriminate.
Qed.

Lemma heat_admission_witness :
  0 < 100000 /\
  PositionSizing.adjust_position_size PositionSizing.default_heat_manager 1000 (5 # 100)
    100000 500 = 1000 * (1 # 2).
Proof.
  split; [reflexivity|].
  destruct (heat_admission PositionSizing.default_heat_manager PortfolioRisk.default_manager
              Inputs.no_corr 1000 (5 # 100) 100000 500 ltac:(reflexivity)
              "AAPL" 10000 1 100 []) as [_ [H _]].
  apply H; vm_compute; [reflexivity | discriminate].
Defined.

(** ** C2: the daily-loss halt latches *)

Module DailyFacts.
Import DailyRisk.

Lemma reset_daily_same (day : Z) (s : DailyRiskManager) :
  today s = day -> reset_daily day s = s.
Proof. intros <-. unfold reset_daily. rewrite Z.eqb_refl. reflexivity. Qed.

Lemma update_keeps_halt (day : Z) (v : Q) (s : DailyRiskManager) :
  today s = day -> trading_halted s = true ->
  let s' := snd (update_portfolio_value day v s) in
  today s' = day /\ trading_halted s' = true /\ breach_logs s' = breach_logs s.
Proof.
  intros Hd Hh. unfold update_portfolio_value. rewrite (reset_daily_same day s Hd).
  destruct (starting_portfolio_value s) as [st|]; cbn [truthy_q];
    [destruct (negb (Qeq_bool st 0)) | destruct (negb (Qeq_bool v 0))]; cbn;
    try (rewrite Hh; cbn); try (destruct (Qle_bool _ _); cbn; try rewrite Hh; cbn);
    auto.
Qed.

Lemma can_trade_keeps (day : Z) (s : DailyRiskManager) :
  today s = day -> snd (can_trade day s) = s.
Proof.
  intros Hd. unfold can_trade. rewrite (reset_daily_same day s Hd).
  destruct (trading_halted s); reflexivity.
Qed.

Lemma run_keeps_halt (day : Z) (calls : list call) (s : DailyRiskManager) :
  today s = day -> trading_halted s = true ->
  let s' := run day calls s in
  today s' = day /\ trading_halted s' = true /\ breach_logs s' = breach_logs s.
Proof.
  unfold run. revert s. induction calls as [|c cs IH]; intros s Hd Hh; cbn [fold_left].
  - auto.
  - destruct c as [v|]; cbn [step].
    + destruct (update_keeps_halt day v s Hd Hh) as (Hd' & Hh' & Hl').
      destruct (IH _ Hd' Hh') as (? & ? & Hl). rewrite Hl, Hl'. auto.
    + rewrite (can_trade_keeps day s Hd). apply IH; assumption.
Qed.

Lemma update_keeps_today (day : Z) (v : Q) (s : DailyRiskManager) :
  today (snd (update_portfolio_value day v s)) = day.
Proof.
  unfold update_portfolio_value, reset_daily.
  destruct (negb (Z.eqb day (today s))) eqn:E; cbn.
  - destruct (Qeq_bool v 0); cbn; [reflexivity|].
    destruct (Qle_bool _ _); reflexivity.
  - apply negb_false_iff, Z.eqb_eq in E. subst day.
    destruct (starting_portfolio_value s) as [st|]; cbn;
      [destruct (Qeq_bool st 0) | destruct (Qeq_bool v 0)]; cbn; try reflexivity;
      destruct (Qle_bool _ _); cbn; try reflexivity;
      destruct (trading_halted s); reflexivity.
Qed.

End DailyFacts.

(** C2. Within one trading day, when an update finds
    [dailyPnL / startingValue <= -maxDailyLossPct] (starting value non-zero),
    the update returns [False], [trading_halted] becomes true and the breach
    is logged once if the manager was not yet halted (not at all if it
    already was).  Any further sequence of value updates (recovering or not)
    and [can_trade] calls on the same day keeps the flag set, logs no more
    breaches, and [can_trade] answers [False]; only a new day or
    [resume_trading] clears it. *)
Theorem daily_halt_latches (day : Z) (s : DailyRisk.DailyRiskManager) (v st : Q)
    (calls : list DailyRisk.call)
    (Hday : DailyRisk.today s = day)
    (Hst : match DailyRisk.starting_portfolio_value s with
           | Some x => x = st
           | None => v = st
           end)
    (Hnz : ~ st == 0)
    (Hbreach : (v - st) / st <= - DailyRisk.max_daily_loss_percent s) :
  let r := DailyRisk.update_portfolio_value day v s in
  let s1 := snd r in
  let s2 := DailyRisk.run day calls s1 in
  fst r = false
  /\ DailyRisk.trading_halted s1 = true
  /\ DailyRisk.breach_logs s1
       = (if DailyRisk.trading_halted s then DailyRisk.breach_logs s
          else S (DailyRisk.breach_logs s))
  /\ DailyRisk.trading_halted s2 = true
  /\ DailyRisk.breach_logs s2 = DailyRisk.breach_logs s1
  /\ fst (fst (DailyRisk.can_trade day s2)) = false
  /\ (forall day', day' <> day -> fst (fst (DailyRisk.can_trade day' s2)) = true)
  /\ DailyRisk.trading_halted (DailyRisk.resume_trading s2) = false.
Proof.
  intros r s1 s2.
  assert (Hnzb : Qeq_bool st 0 = false).
  { destruct (Qeq_bool st 0) eqn:E; [|reflexivity]. apply Qeq_bool_iff in E. contradiction. }
  assert (Hle : Qle_bool ((v - st) / st * 100) (- (DailyRisk.max_daily_loss_percent s * 100)) = true).
  { apply Qle_bool_iff.
    assert (E : - (DailyRisk.max_daily_loss_percent s * 100)
                == (- DailyRisk.max_daily_loss_percent s) * 100) by ring.
    rewrite E.
    apply Qmult_le_r; [reflexivity | exact Hbreach]. }
  assert (Hr : fst r = false /\ DailyRisk.trading_halted s1 = true
               /\ DailyRisk.breach_logs s1
                  = (if DailyRisk.trading_halted s then DailyRisk.breach_logs s
                     else S (DailyRisk.breach_logs s))).
  { unfold s1, r, DailyRisk.update_portfolio_value.
    rewrite (DailyFacts.reset_daily_same day s Hday).
    destruct (DailyRisk.starting_portfolio_value s) as [x|]; subst;
      cbv beta iota zeta delta [truthy_q negb]; cbn -[Qle_bool Qeq_bool Qdiv Qmult Qminus Qopp];
      rewrite Hnzb; cbn -[Qle_bool Qeq_bool Qdiv Qmult Qminus Qopp]; rewrite Hle;
      destruct (DailyRisk.trading_halted s); cbn; auto. }
  destruct Hr as (Hr1 & Hr2 & Hr3).
  assert (Hd1 : DailyRisk.today s1 = day) by apply DailyFacts.update_keeps_today.
  destruct (DailyFacts.run_keeps_halt day calls s1 Hd1 Hr2) as (Hd2 & Hh2 & Hl2).
  fold s2 in Hd2, Hh2, Hl2.
  split; [exact Hr1|]. split; [exact Hr2|]. split; [exact Hr3|].
  split; [exact Hh2|]. split; [exact Hl2|].
  split; [|split].
  - unfold DailyRisk.can_trade. rewrite (DailyFacts.reset_daily_same day s2 Hd2), Hh2. reflexivity.
  - intros day' Hne. unfold DailyRisk.can_trade, DailyRisk.reset_daily.
    rewrite Hd2. destruct (Z.eqb day' day) eqn:E.
    + apply Z.eqb_eq in E. contradiction.
    + reflexivity.
  - reflexivity.
Qed.

Lemma daily_halt_latches_witness :
  DailyRisk.today Inputs.day_start = 1%Z
  /\ DailyRisk.starting_portfolio_value Inputs.day_start = Some 100000
  /\ ~ 100000 == 0
  /\ (97000 - 100000) / 100000 <= - DailyRisk.max_daily_loss_percent Inputs.day_start
  /\ fst (fst (DailyRisk.can_trade 1
       (DailyRisk.run 1 Inputs.recovery_calls
          (snd (DailyRisk.update_portfolio_value 1 97000 Inputs.day_start))))) = false.
Proof.
  assert (Hd : DailyRisk.today Inputs.day_start = 1%Z) by reflexivity.
  assert (Hs : DailyRisk.starting_portfolio_value Inputs.day_start = Some 100000) by reflexivity.
  assert (Hn : ~ 100000 == 0) by (vm_compute; discriminate).
  assert (Hb : (97000 - 100000) / 100000 <= - DailyRisk.max_daily_loss_percent Inputs.day_start)
    by (vm_compute; discriminate).
  split; [exact Hd|]. split; [exact Hs|]. split; [exact Hn|]. split; [exact Hb|].
  destruct (daily_halt_latches 1 Inputs.day_start 97000 100000 Inputs.recovery_calls Hd
              ltac:(rewrite Hs; reflexivity) Hn Hb)
    as (_ & _ & _ & _ & _ & H & _).
  exact H.
Defined.

(** ** C3 and C4: the per-symbol step of the strategy worker *)

Module ExecutorFacts.
Import Executor.

Lemma has_position_some (w : world) (sid sym : string) (p : Position) :
  positions w !! (sid, sym) = Some p -> has_position w sid sym = true.
Proof. intros H. unfold has_position. apply bool_decide_eq_true. rewrite H. eexists; reflexivity. Qed.

Lemma sell_done (sell_steps : string -> string -> Q -> string -> sell_outcome)
    (sid sym reason : string) (price : Q) (w : world) (p : Position) :
  positions w !! (sid, sym) = Some p -> ~ p_entry_price p == 0 ->
  sell_steps sid sym price reason = SellDone ->
  execute_sell true sell_steps sid sym price reason w
  = (true, {| positions := delete (sid, sym) (positions w);
              history := history w ++ [Sold sid sym (p_shares p) price reason
                                         (unrealized_pnl p price)] |}).
Proof.
  intros H He Hs. unfold execute_sell. cbn [negb]. rewrite H.
  destruct (Qeq_bool (p_entry_price p) 0) eqn:E;
    [apply Qeq_bool_iff in E; contradiction|].
  rewrite Hs. reflexivity.
Qed.

(** A sale on a held position completes exactly when the entry price is
    nonzero and the calls after the lookup all return. *)
Lemma sell_result_iff (sell_steps : string -> string -> Q -> string -> sell_outcome)
    (sid sym reason : string) (price : Q) (w : world) (p : Position) :
  positions w !! (sid, sym) = Some p ->
  fst (execute_sell true sell_steps sid sym price reason w) = true
  <-> ~ p_entry_price p == 0 /\ sell_steps sid sym price reason = SellDone.
Proof.
  intros H. unfold execute_sell. cbn [negb]. rewrite H.
  destruct (Qeq_bool (p_entry_price p) 0) eqn:E.
  - apply Qeq_bool_iff in E. cbn. split; [discriminate|]. intros [Hn _]. contradiction.
  - assert (Hn : ~ p_entry_price p == 0)
      by (intros Hz; apply Qeq_bool_iff in Hz; congruence).
    destruct (sell_steps sid sym price reason); cbn; split; try discriminate; try tauto;
      intros [_ Hc]; discriminate.
Qed.

(** Whatever happens, [_execute_sell] either leaves the positions as they
    were (returning [False]) or removes exactly the pair (returning
    [True]), and it only ever appends sales to the history. *)
Lemma sell_cases (engine : bool) (sell_steps : string -> string -> Q -> string -> sell_outcome)
    (sid sym reason : string) (price : Q) (w : world) :
  ((fst (execute_sell engine sell_steps sid sym price reason w) = false
    /\ positions (snd (execute_sell engine sell_steps sid sym price reason w)) = positions w)
   \/ (fst (execute_sell engine sell_steps sid sym price reason w) = true
       /\ positions (snd (execute_sell engine sell_steps sid sym price reason w))
          = delete (sid, sym) (positions w)))
  /\ exists l, history (snd (execute_sell engine sell_steps sid sym price reason w))
               = history w ++ l /\ Forall (fun t => is_buy t = false) l.
Proof.
  unfold execute_sell. destruct engine; cbn [negb];
    [|split; [left; split; reflexivity | exists []; rewrite app_nil_r; split; [reflexivity|constructor]]].
  destruct (positions w !! (sid, sym)) as [p|];
    [|split; [left; split; reflexivity | exists []; rewrite app_nil_r; split; [reflexivity|constructor]]].
  destruct (Qeq_bool (p_entry_price p) 0);
    [split; [left; split; reflexivity | exists []; rewrite app_nil_r; split; [reflexivity|constructor]]|].
  destruct (sell_steps sid sym price reason); cbn [fst snd positions history].
  - split; [right; split; reflexivity|].
    eexists. split; [reflexivity|]. repeat constructor.
  - split; [left; split; reflexivity | exists []; rewrite app_nil_r; split; [reflexivity|constructor]].
  - split; [left; split; reflexivity|].
    eexists. split; [reflexivity|]. repeat constructor.
Qed.

(** What a tick may do to a pair held as [p] at the start: append sales
    only, and leave the pair holding [p] or nothing. *)
Definition tick_inv (sid sym : string) (p : Position) (w0 w : world) : Prop :=
  (exists l, history w = history w0 ++ l /\ Forall (fun t => is_buy t = false) l)
  /\ (positions w !! (sid, sym) = None \/ positions w !! (sid, sym) = Some p).

Lemma tick_inv_refl (sid sym : string) (p : Position) (w : world) :
  positions w !! (sid, sym) = Some p -> tick_inv sid sym p w w.
Proof.
  intros H. split; [|right; exact H].
  exists []. rewrite app_nil_r. split; [reflexivity|constructor].
Qed.

Lemma tick_inv_sell (engine : bool) (sell_steps : string -> string -> Q -> string -> sell_outcome)
    (sid sym reason : string) (price : Q) (p : Position) (w0 w : world) :
  tick_inv sid sym p w0 w ->
  tick_inv sid sym p w0 (snd (execute_sell engine sell_steps sid sym price reason w)).
Proof.
  intros [[l [Hl Fl]] Hk].
  destruct (sell_cases engine sell_steps sid sym reason price w) as [Hc [l' [Hl' Fl']]].
  split.
  - exists (l ++ l'). rewrite Hl', Hl, app_assoc. split; [reflexivity|].
    apply Forall_app; split; assumption.
  - destruct Hc as [[_ E]|[_ E]]; rewrite E; [exact Hk|]. left. apply lookup_delete_eq.
Qed.

(** A tick that starts with the pair held as [p] makes no entry. *)
Lemma tick_extends (buy_plan : string -> string -> Q -> option (Q * Q))
    (sell_steps : string -> string -> Q -> string -> sell_outcome)
    (sid sym signal : string) (price : Q) (w : world) (p : Position) :
  positions w !! (sid, sym) = Some p ->
  tick_inv sid sym p w (process_symbol true buy_plan sell_steps sid sym signal price w).
Proof.
  intros Hp. unfold process_symbol. rewrite (has_position_some w sid sym p Hp).
  set (w1 := if String.eqb signal "BUY" then (if negb true then _ else w)
             else if String.eqb signal "SELL" then _ else w).
  assert (H1 : tick_inv sid sym p w w1).
  { subst w1. cbn [negb].
    destruct (String.eqb signal "BUY"); [apply tick_inv_refl; exact Hp|].
    destruct (String.eqb signal "SELL"); [|apply tick_inv_refl; exact Hp].
    apply tick_inv_sell. apply tick_inv_refl; exact Hp. }
  destruct (positions w1 !! (sid, sym)) as [q|] eqn:Eq; [|exact H1].
  assert (q = p) as ->.
  { destruct H1 as [_ [Hn|Hs]]; congruence. }
  destruct (check_stop_loss price p); [apply tick_inv_sell; exact H1|].
  destruct (check_take_profit price p); [apply tick_inv_sell; exact H1|exact H1].
Qed.

(** [check_stop_loss] fires exactly at or below a set stop; [check_take_profit]
    exactly at or above a set target. *)
Lemma check_stop_loss_iff (price : Q) (p : Position) :
  check_stop_loss price p = true <-> exists s, p_stop_loss p = Some s /\ price <= s.
Proof.
  unfold check_stop_loss. destruct (p_stop_loss p) as [s|]; split.
  - intros H. exists s. split; [reflexivity|]. apply Qle_bool_iff; exact H.
  - intros (s' & Hs & Hle). injection Hs as <-. apply Qle_bool_iff; exact Hle.
  - discriminate.
  - intros (s' & Hs & _). discriminate.
Qed.

Lemma check_take_profit_iff (price : Q) (p : Position) :
  check_take_profit price p = true <-> exists t, p_take_profit p = Some t /\ t <= price.
Proof.
  unfold check_take_profit. destruct (p_take_profit p) as [t|]; split.
  - intros H. exists t. split; [reflexivity|]. apply Qle_bool_iff; exact H.
  - intros (t' & Ht & Hle). injection Ht as <-. apply Qle_bool_iff; exact Hle.
  - discriminate.
  - intros (t' & Ht & _). discriminate.
Qed.

End ExecutorFacts.

(** C3 fails as stated: with a position whose stop ($95) is hit at $94 and a
    SELL signal, the signal is acted on first and (all calls returning)
    the position is closed with reason "signal"; the stop-loss check never
    fires. *)
Lemma stop_after_signal_counterexample :
  Executor.check_stop_loss 94 Inputs.pos100 = true
  /\ Executor.history
       (Executor.process_symbol true Inputs.no_buy Inputs.sells_ok "s1" "AAPL" "SELL" 94
          Inputs.world0)
     = [Executor.Sold "s1" "AAPL" 10 94 "signal" ((94 - 100) * 10)].
Proof. split; vm_compute; reflexivity. Qed.

(** C3 (amended).  With the trading engine configured and an open position
    [p] for the (strategy, symbol) pair, one tick first acts on the signal
    and only then checks stop-loss and take-profit on what remains.  A
    SELL signal first attempts a sale with reason "signal"; when that sale
    completes (nonzero entry price and every call returning) the position
    is closed, exactly one "signal" sale is logged and nothing else happens
    for the pair in that tick.  When it raises, [_execute_sell] returns
    False with the position still open, and the stop-loss check, then the
    take-profit check, run on [p] in the same tick and may attempt a second
    sale.  For any other signal (a BUY is ignored while the position
    exists) only the stop-loss check, then the take-profit check, decide an
    exit attempt.  No entry is made in a tick that starts with a position:
    the history only gains sales and the pair ends with [p] or nothing. *)
Theorem signal_then_exit (buy_plan : string -> string -> Q -> option (Q * Q))
    (sell_steps : string -> string -> Q -> string -> Executor.sell_outcome)
    (sid sym signal : string) (current_price : Q) (w : Executor.world) (p : Executor.Position)
    (Hp : Executor.positions w !! (sid, sym) = Some p) :
  let w' := Executor.process_symbol true buy_plan sell_steps sid sym signal current_price w in
  (signal = "SELL" ->
     (fst (Executor.execute_sell true sell_steps sid sym current_price "signal" w) = true
      <-> ~ Executor.p_entry_price p == 0
          /\ sell_steps sid sym current_price "signal" = Executor.SellDone)
     /\ (fst (Executor.execute_sell true sell_steps sid sym current_price "signal" w) = true ->
         Executor.history w' = Executor.history w ++
           [Executor.Sold sid sym (Executor.p_shares p) current_price "signal"
              (Executor.unrealized_pnl p current_price)]
         /\ Executor.positions w' !! (sid, sym) = None)
     /\ (fst (Executor.execute_sell true sell_steps sid sym current_price "signal" w) = false ->
         let w1 := snd (Executor.execute_sell true sell_steps sid sym current_price "signal" w) in
         Executor.positions w1 !! (sid, sym) = Some p
         /\ w' = (if Executor.check_stop_loss current_price p then
                    snd (Executor.execute_sell true sell_steps sid sym current_price "stop_loss" w1)
                  else if Executor.check_take_profit current_price p then
                    snd (Executor.execute_sell true sell_steps sid sym current_price "take_profit" w1)
                  else w1)))
  /\ (signal <> "SELL" ->
      w' = (if Executor.check_stop_loss current_price p then
              snd (Executor.execute_sell true sell_steps sid sym current_price "stop_loss" w)
            else if Executor.check_take_profit current_price p then
              snd (Executor.execute_sell true sell_steps sid sym current_price "take_profit" w)
            else w))
  /\ (exists l, Executor.history w' = Executor.history w ++ l
                /\ Forall (fun t => Executor.is_buy t = false) l)
  /\ (Executor.positions w' !! (sid, sym) = None
      \/ Executor.positions w' !! (sid, sym) = Some p).
Proof.
  intros w'.
  split; [|split; [|exact (ExecutorFacts.tick_extends buy_plan sell_steps sid sym signal
                              current_price w p Hp)]].
  all: unfold w', Executor.process_symbol; rewrite (ExecutorFacts.has_position_some w sid sym p Hp).
  - intros ->. cbn [String.eqb Ascii.eqb Bool.eqb andb negb].
    split; [apply ExecutorFacts.sell_result_iff; exact Hp|].
    split.
    + intros Ht. apply (ExecutorFacts.sell_result_iff _ _ _ _ _ _ p Hp) in Ht.
      destruct Ht as [He Hs].
      rewrite (ExecutorFacts.sell_done sell_steps sid sym "signal" current_price w p Hp He Hs).
      cbn [snd Executor.positions Executor.history]. rewrite lookup_delete_eq.
      split; [reflexivity|]. cbn [Executor.positions]. apply lookup_delete_eq.
    + intros Hf. cbv zeta.
      destruct (ExecutorFacts.sell_cases true sell_steps sid sym "signal" current_price w)
        as [[[_ Hk]|[Ht _]] _]; [|congruence].
      rewrite Hk, Hp. split; reflexivity.
  - intros Hne.
    assert (ES : String.eqb signal "SELL" = false) by (apply String.eqb_neq; exact Hne).
    rewrite ES. cbn [negb].
    assert (Hw : (if String.eqb signal "BUY" then w else w) = w)
      by (destruct (String.eqb signal "BUY"); reflexivity).
    rewrite Hw, Hp. reflexivity.
Qed.

(** The stop at $95 is hit at $94 together with a SELL signal, and the
    broker refuses the signal sale: the same tick then sells on the stop. *)
Lemma signal_then_exit_witness :
  Executor.positions Inputs.world0 !! ("s1", "AAPL") = Some Inputs.pos100
  /\ Executor.history
       (Executor.process_symbol true Inputs.no_buy Inputs.signal_sale_fails "s1" "AAPL" "SELL" 94
          Inputs.world0)
     = [Executor.Sold "s1" "AAPL" 10 94 "stop_loss" ((94 - 100) * 10)].
Proof.
  assert (Hp : Executor.positions Inputs.world0 !! ("s1", "AAPL") = Some Inputs.pos100)
    by (vm_compute; reflexivity).
  split; [exact Hp|].
  destruct (signal_then_exit Inputs.no_buy Inputs.signal_sale_fails "s1" "AAPL" "SELL" 94
              Inputs.world0 Inputs.pos100 Hp) as [H _].
  destruct (H eq_refl) as (_ & _ & Hf).
  destruct (Hf ltac:(vm_compute; reflexivity)) as [_ E].
  rewrite E. vm_compute. reflexivity.
Defined.

(** C4 (code).  For the position entered at $100 with its stop at $95, a
    tick whose price is $94 triggers the stop check, and the worker (every
    call of [_execute_sell] returning) closes the position at the tick
    price $94 (recorded exit price and P&L), not at the stop price $95. *)
Lemma stop_exit_at_tick_price :
  Executor.check_stop_loss 94 Inputs.pos100 = true
  /\ Executor.history
       (Executor.process_symbol true Inputs.no_buy Inputs.sells_ok "s1" "AAPL" "HOLD" 94
          Inputs.world0)
     = [Executor.Sold "s1" "AAPL" 10 94 "stop_loss" ((94 - 100) * 10)].
Proof. split; vm_compute; reflexivity. Qed.

(** ** C5, C6, C9: the order manager *)

(** C5 (code).  [cancel_order] lists only FILLED, CANCELED and REJECTED as
    non-cancellable: an EXPIRED order is canceled and reported as success,
    in backtest mode and, when the broker call succeeds, in paper/live
    mode; its status becomes CANCELED and [canceled_at] is set. *)
Lemma cancel_expired_accepted :
  let r := Orders.cancel_order
             (Inputs.manager_with Orders.BACKTEST false
                (Inputs.mk_order Orders.LIMIT Orders.EXPIRED (Some 95) None (Some "b1")))
             5 "alphaflow_1" false in
  let r' := Orders.cancel_order
             (Inputs.manager_with Orders.PAPER true
                (Inputs.mk_order Orders.LIMIT Orders.EXPIRED (Some 95) None (Some "b1")))
             5 "alphaflow_1" true in
  fst r = true
  /\ option_map Orders.status (Orders.stored_order (snd r) "alphaflow_1") = Some Orders.CANCELED
  /\ option_map Orders.canceled_at (Orders.stored_order (snd r) "alphaflow_1") = Some (Some 5%Z)
  /\ fst r' = true
  /\ option_map Orders.status (Orders.stored_order (snd r') "alphaflow_1") = Some Orders.CANCELED.
Proof. vm_compute. repeat split. Qed.

(** The other terminal states are refused and leave the store unchanged. *)
Lemma cancel_refused_states (mode : Orders.TradingMode) (api broker_ok : bool)
    (ot : Orders.OrderType) (st : Orders.OrderStatus) (lp sp : option Q)
    (oid : option string) (now : Z) :
  st = Orders.FILLED \/ st = Orders.CANCELED \/ st = Orders.REJECTED ->
  Orders.cancel_order (Inputs.manager_with mode api (Inputs.mk_order ot st lp sp oid))
    now "alphaflow_1" broker_ok
  = (false, Inputs.manager_with mode api (Inputs.mk_order ot st lp sp oid)).
Proof.
  intros H. unfold Orders.cancel_order, Inputs.manager_with. cbn [Orders.orders].
  rewrite lookup_singleton_eq. cbn [Orders.status Inputs.mk_order].
  destruct H as [-> | [-> | ->]]; reflexivity.
Qed.

(** C6 (code).  [create_order] checks the limit price only for LIMIT and
    the stop price only for STOP and STOP_LIMIT: a STOP_LIMIT order without
    a limit price and a TRAILING_STOP order without a stop price are both
    created in state PENDING. *)
Lemma create_order_missing_prices_accepted :
  option_map Orders.status
    (fst (Orders.create_order (Inputs.empty_manager Orders.PAPER) 0 "alphaflow_1"
            "AAPL" Orders.BUY 10 Orders.STOP_LIMIT None (Some 95) Orders.DAY))
    = Some Orders.PENDING
  /\ option_map Orders.status
    (fst (Orders.create_order (Inputs.empty_manager Orders.PAPER) 0 "alphaflow_1"
            "AAPL" Orders.BUY 10 Orders.TRAILING_STOP None None Orders.DAY))
    = Some Orders.PENDING.
Proof. vm_compute. split; reflexivity. Qed.

(** C9 (code).  In backtest mode [submit_order] fills an order without a
    (truthy) limit price at the constant 100.0, whatever the bar's close and
    whatever its stop price; it does set FILLED and [filled_quantity =
    quantity]. *)
Theorem backtest_fill_constant_price (m : Orders.OrderManager) (now : Z) (cid : string)
    (broker : string + string) (o : Orders.Order)
    (Hmode : Orders.trading_mode m = Orders.BACKTEST)
    (Ho : Orders.orders m !! cid = Some o)
    (Hlp : Orders.limit_price o = None) :
  let r := Orders.submit_order m now cid broker in
  fst r = true
  /\ option_map Orders.status (Orders.stored_order (snd r) cid) = Some Orders.FILLED
  /\ option_map Orders.filled_quantity (Orders.stored_order (snd r) cid) = Some (Orders.quantity o)
  /\ option_map Orders.filled_avg_price (Orders.stored_order (snd r) cid) = Some (Some 100).
Proof.
  intros r. unfold r, Orders.submit_order. rewrite Ho, Hmode.
  cbn [Orders.TradingMode_eqb fst snd].
  unfold Orders.stored_order, Orders.with_orders. cbn [Orders.orders]. rewrite lookup_insert_eq.
  cbn [option_map Orders.simulate_backtest_fill Orders.status Orders.filled_quantity
       Orders.filled_avg_price].
  rewrite Hlp. repeat split.
Qed.

Lemma backtest_fill_constant_price_witness :
  let o := Inputs.mk_order Orders.STOP Orders.PENDING None (Some 95) None in
  Orders.trading_mode (Inputs.manager_with Orders.BACKTEST false o) = Orders.BACKTEST
  /\ Orders.orders (Inputs.manager_with Orders.BACKTEST false o) !! "alphaflow_1" = Some o
  /\ Orders.limit_price o = None
  /\ option_map Orders.filled_avg_price
       (Orders.stored_order (snd (Orders.submit_order (Inputs.manager_with Orders.BACKTEST false o)
                             7 "alphaflow_1" (inl "b1"))) "alphaflow_1") = Some (Some 100).
Proof.
  intros o.
  assert (H1 : Orders.trading_mode (Inputs.manager_with Orders.BACKTEST false o) = Orders.BACKTEST)
    by reflexivity.
  assert (H2 : Orders.orders (Inputs.manager_with Orders.BACKTEST false o) !! "alphaflow_1" = Some o)
    by (vm_compute; reflexivity).
  assert (H3 : Orders.limit_price o = None) by reflexivity.
  split; [exact H1|]. split; [exact H2|]. split; [exact H3|].
  destruct (backtest_fill_constant_price _ 7 "alphaflow_1" (inl "b1") o H1 H2 H3)
    as (_ & _ & _ & H). exact H.
Defined.

(** ** C7: closing a position *)

(** C7 fails as stated: closing 15 shares of a 10-share position does not
    fail; the request is clamped, the whole position is closed and a trade
    record of 10 shares is returned. *)
Lemma close_over_quantity_counterexample :
  let r := Ledger.close_position Inputs.pm0 "AAPL" 110 (Some 15%Z) in
  option_map Ledger.t_quantity (fst r) = Some 10%Z
  /\ Ledger.positions (snd r) !! "AAPL" = None.
Proof. vm_compute. split; reflexivity. Qed.

(** C7 (amended).  For an open long position ([quantity > 0]) and a request
    of [None], 0 or a positive quantity, [close_position] succeeds and
    closes [min(request, open)] shares ([None] and 0 mean the whole
    position): the closed quantity lies in [0, open]; realized P&L is
    (exit − entry) × closed quantity; closing the full quantity removes the
    position, a smaller close leaves [open − closed > 0] shares.  A request
    above the open quantity is clamped and closes the whole position
    rather than failing. *)
Theorem close_position_clamps (pm : Ledger.PortfolioManager) (sym : string) (price : Q)
    (pos : Ledger.Position) (req : option Z)
    (Hp : Ledger.positions pm !! sym = Some pos)
    (Hq : (0 < Ledger.quantity pos)%Z)
    (Hreq : match req with Some n => (0 <= n)%Z | None => True end) :
  let q := Ledger.quantity pos in
  let closed := match req with
                | Some n => if Z.eqb n 0 then q else Z.min n q
                | None => q
                end in
  exists trade pm',
    Ledger.close_position pm sym price req = (Some trade, pm')
    /\ Ledger.t_quantity trade = closed
    /\ (0 <= closed <= q)%Z
    /\ Ledger.t_pnl trade == (price - Ledger.entry_price pos) * inject_Z closed
    /\ (closed = q -> Ledger.positions pm' !! sym = None)
    /\ ((closed < q)%Z ->
        exists pos', Ledger.positions pm' !! sym = Some pos'
                     /\ Ledger.quantity pos' = (q - closed)%Z
                     /\ (0 < Ledger.quantity pos')%Z).
Proof.
  intros q closed.
  assert (Hc : (if Z.ltb (Ledger.quantity pos)
                   (match req with
                    | Some n => if Z.eqb n 0 then Ledger.quantity pos else n
                    | None => Ledger.quantity pos
                    end)
                 then Ledger.quantity pos
                 else match req with
                      | Some n => if Z.eqb n 0 then Ledger.quantity pos else n
                      | None => Ledger.quantity pos
                      end) = closed).
  { unfold closed, q. destruct req as [n|]; [|rewrite Z.ltb_irrefl; reflexivity].
    destruct (Z.eqb n 0); [rewrite Z.ltb_irrefl; reflexivity|].
    destruct (Z.ltb (Ledger.quantity pos) n) eqn:E.
    - apply Z.ltb_lt in E. symmetry. apply Z.min_r. lia.
    - apply Z.ltb_ge in E. symmetry. apply Z.min_l. exact E. }
  assert (Hrange : (0 <= closed <= q)%Z).
  { unfold closed. destruct req as [n|]; [|lia].
    destruct (Z.eqb n 0); [lia|]. lia. }
  unfold Ledger.close_position. rewrite Hp. cbv zeta. rewrite Hc. fold q.
  eexists; eexists. split; [reflexivity|].
  cbn [Ledger.t_quantity Ledger.t_pnl Ledger.positions].
  split; [reflexivity|]. split; [exact Hrange|]. split.
  - rewrite <- (Qmult_comm (inject_Z closed)). ring.
  - split.
    + intros Heq. rewrite Heq, Z.geb_leb, Z.leb_refl. apply lookup_delete_eq.
    + intros Hlt. assert (Hg : Z.geb closed q = false)
        by (rewrite Z.geb_leb; apply Z.leb_gt; exact Hlt).
      rewrite Hg. eexists. rewrite lookup_insert_eq. split; [reflexivity|].
      cbn. split; [reflexivity | lia].
Qed.

Lemma close_position_clamps_witness :
  Ledger.positions Inputs.pm0 !! "AAPL" = Some Inputs.aapl10
  /\ (0 < Ledger.quantity Inputs.aapl10)%Z
  /\ (0 <= 4)%Z
  /\ exists trade pm',
       Ledger.close_position Inputs.pm0 "AAPL" 110 (Some 4%Z) = (Some trade, pm')
       /\ Ledger.t_quantity trade = 4%Z.
Proof.
  assert (Hp : Ledger.positions Inputs.pm0 !! "AAPL" = Some Inputs.aapl10)
    by (vm_compute; reflexivity).
  assert (Hq : (0 < Ledger.quantity Inputs.aapl10)%Z) by (vm_compute; reflexivity).
  assert (Hr : (0 <= 4)%Z) by lia.
  split; [exact Hp|]. split; [exact Hq|]. split; [exact Hr|].
  destruct (close_position_clamps Inputs.pm0 "AAPL" 110 Inputs.aapl10 (Some 4%Z) Hp Hq Hr)
    as (trade & pm' & H1 & H2 & _).
  exists trade, pm'. split; [exact H1|]. rewrite H2. reflexivity.
Defined.

(** ** C8: Kelly sizing *)

(** C8 fails as stated: below the 40% win-rate floor the sizer does not
    return 0; it returns the 5% fallback ($50 of a $1,000 portfolio). *)
Lemma kelly_low_win_rate_counterexample :
  PositionSizing.calculate_position_size PositionSizing.default_kelly (3 # 10) 2 1000 == 50
  /\ ~ PositionSizing.calculate_position_size PositionSizing.default_kelly (3 # 10) 2 1000 == 0.
Proof. split; vm_compute; [reflexivity | discriminate]. Qed.

(** C8 (amended).  For a cap [max_position >= 0] and a non-negative
    portfolio value: when [0.4 <= winRate <= 1] and [b > 0] the applied
    fraction (the safety fraction of (b·p − (1−p))/b, clamped) lies in
    [0, max_position] and the returned dollar size is portfolio value times
    it, hence in [0, max_position × portfolio value]; when [winRate < 0.4],
    [winRate > 1] or [b <= 0] the sizer returns the 5% fallback, not 0. *)
Theorem kelly_bounds_and_fallback (k : PositionSizing.KellyCriterionCalculator)
    (win_rate reward_risk_ratio portfolio_value : Q)
    (Hmax : 0 <= PositionSizing.max_position k) (Hpv : 0 <= portfolio_value) :
  let size := PositionSizing.calculate_position_size k win_rate reward_risk_ratio
                portfolio_value in
  let f := PositionSizing.applied_fraction k win_rate reward_risk_ratio in
  ((4 # 10) <= win_rate -> win_rate <= 1 -> 0 < reward_risk_ratio ->
     0 <= f /\ f <= PositionSizing.max_position k
     /\ size = portfolio_value * f
     /\ 0 <= size /\ size <= PositionSizing.max_position k * portfolio_value)
  /\ (win_rate < 4 # 10 \/ 1 < win_rate \/ reward_risk_ratio <= 0 ->
      size = portfolio_value * (5 # 100)).
Proof.
  intros size f.
  assert (Hf : 0 <= f /\ f <= PositionSizing.max_position k).
  { unfold f, PositionSizing.applied_fraction.
    set (s0 := (reward_risk_ratio * win_rate - (1 - win_rate)) / reward_risk_ratio
               * PositionSizing.fraction k).
    destruct (Qlt_bool 0 s0) eqn:E1; qcase E1.
    - destruct (Qlt_bool (PositionSizing.max_position k) s0) eqn:E2; qcase E2.
      + split; [exact Hmax | apply Qle_refl].
      + split; [apply Qlt_le_weak; exact E1 | exact E2].
    - destruct (Qlt_bool (PositionSizing.max_position k) 0) eqn:E2; qcase E2.
      + split; [exact Hmax | apply Qle_refl].
      + split; [apply Qle_refl | exact Hmax]. }
  split.
  - intros Hlo Hhi Hb.
    assert (Hs : size = portfolio_value * f).
    { unfold size, f, PositionSizing.calculate_position_size.
      assert (E1 : Qlt_bool win_rate (4 # 10) = false) by (apply Qlt_bool_false; exact Hlo).
      assert (E2 : Qlt_bool 1 win_rate = false) by (apply Qlt_bool_false; exact Hhi).
      assert (E3 : Qle_bool reward_risk_ratio 0 = false) by (apply Qle_bool_false; exact Hb).
      rewrite E1, E2, E3. reflexivity. }
    destruct Hf as [Hf0 Hf1].
    split; [exact Hf0|]. split; [exact Hf1|]. split; [exact Hs|].
    rewrite Hs. split.
    + apply Qmult_le_0_compat; assumption.
    + rewrite (Qmult_comm portfolio_value f). apply Qmult_le_compat_r; assumption.
  - intros H. unfold size, PositionSizing.calculate_position_size.
    destruct H as [H | [H | H]].
    + assert (E : Qlt_bool win_rate (4 # 10) = true) by (apply Qlt_bool_iff; exact H).
      rewrite E. reflexivity.
    + assert (E : Qlt_bool 1 win_rate = true) by (apply Qlt_bool_iff; exact H).
      rewrite E, orb_true_r. reflexivity.
    + destruct (Qlt_bool win_rate (4 # 10) || Qlt_bool 1 win_rate); [reflexivity|].
      assert (E : Qle_bool reward_risk_ratio 0 = true) by (apply Qle_bool_iff; exact H).
      rewrite E. reflexivity.
Qed.

Lemma kelly_bounds_and_fallback_witness :
  0 <= PositionSizing.max_position PositionSizing.default_kelly /\ 0 <= 100000
  /\ PositionSizing.calculate_position_size PositionSizing.default_kelly (6 # 10) 2 100000
     <= PositionSizing.max_position PositionSizing.default_kelly * 100000.
Proof.
  assert (H1 : 0 <= PositionSizing.max_position PositionSizing.default_kelly)
    by (vm_compute; discriminate).
  assert (H2 : 0 <= 100000) by (vm_compute; discriminate).
  split; [exact H1|]. split; [exact H2|].
  destruct (kelly_bounds_and_fallback PositionSizing.default_kelly (6 # 10) 2 100000 H1 H2)
    as [H _].
  destruct (H ltac:(vm_compute; discriminate) ltac:(vm_compute; discriminate)
              ltac:(reflexivity)) as (_ & _ & _ & _ & Hle).
  exact Hle.
Defined.

(* ================================================================== *)
(** * Properties of the remaining methods *)

(** ** Portfolio ledger *)

Module LedgerFacts.
Import Ledger PortfolioOps.

Definition pv_fold (m : gmap string Position) : Q :=
  map_fold (fun _ p acc => market_value p + acc) 0 m.

Lemma pv_fold_insert_None (m : gmap string Position) i x :
  m !! i = None -> pv_fold (<[i := x]> m) == market_value x + pv_fold m.
Proof.
  intros Hi. unfold pv_fold.
  apply (map_fold_insert Qeq (fun (_ : string) p acc => market_value p + acc) 0 i x m); [| |exact Hi].
  - intros j z a b Hab. rewrite Hab. reflexivity.
  - intros j1 j2 z1 z2 y _ _ _. ring.
Qed.

Lemma pv_fold_delete (m : gmap string Position) i x :
  m !! i = Some x -> pv_fold m == market_value x + pv_fold (delete i m).
Proof.
  intros Hi. rewrite <- (insert_delete_id m i x Hi) at 1.
  apply pv_fold_insert_None. apply lookup_delete_eq.
Qed.

Lemma pv_fold_insert (m : gmap string Position) i x :
  pv_fold (<[i := x]> m) == market_value x + pv_fold (delete i m).
Proof.
  rewrite <- insert_delete_eq. apply pv_fold_insert_None. apply lookup_delete_eq.
Qed.

Lemma realized_fold_app (l : list TradeRecord) (t : TradeRecord) :
  fold_left (fun acc t => if String.eqb (t_status t) "CLOSED" then acc + t_pnl t else acc)
    (l ++ [t]) 0
  = (if String.eqb (t_status t) "CLOSED"
     then fold_left (fun acc t => if String.eqb (t_status t) "CLOSED" then acc + t_pnl t else acc)
            l 0 + t_pnl t
     else fold_left (fun acc t => if String.eqb (t_status t) "CLOSED" then acc + t_pnl t else acc)
            l 0).
Proof. rewrite fold_left_app. reflexivity. Qed.

Lemma inject_Z_sub (x y : Z) : inject_Z (x - y) == inject_Z x - inject_Z y.
Proof. unfold Z.sub. rewrite inject_Z_plus, inject_Z_opp. reflexivity. Qed.

Definition price_step (sym : string) (price : Q) (ps : gmap string Position)
    : gmap string Position :=
  match ps !! sym with
  | Some p => <[sym := with_current_price p price]> ps
  | None => ps
  end.

Definition upd (c : option Q) (p : Position) : Position :=
  match c with Some c => with_current_price p c | None => p end.

Lemma price_step_comm j1 j2 z1 z2 y :
  j1 <> j2 -> price_step j1 z1 (price_step j2 z2 y) = price_step j2 z2 (price_step j1 z1 y).
Proof.
  intros Hne. unfold price_step.
  destruct (y !! j2) as [p2|] eqn:E2; destruct (y !! j1) as [p1|] eqn:E1;
    rewrite ?lookup_insert_ne by congruence; rewrite ?E1, ?E2;
    try reflexivity.
  apply insert_insert_ne. exact Hne.
Qed.

Lemma price_fold_lookup (prices : gmap string Q) (ps : gmap string Position) sym :
  map_fold price_step ps prices !! sym = upd (prices !! sym) <$> ps !! sym.
Proof.
  revert ps. induction prices as [|i x m Hi IH] using map_ind; intros ps.
  - rewrite map_fold_empty, lookup_empty. destruct (ps !! sym); reflexivity.
  - rewrite map_fold_insert_L; [| intros; apply price_step_comm; assumption | exact Hi].
    destruct (decide (i = sym)) as [<-|Hne].
    + pose proof (IH ps) as IHp. rewrite Hi in IHp.
      rewrite lookup_insert_eq. unfold price_step at 1. rewrite IHp.
      match goal with |- context [upd None <$> ?t] => destruct t as [p|] eqn:Eps end;
        cbn [fmap option_fmap option_map].
      * rewrite lookup_insert_eq. reflexivity.
      * rewrite IHp. reflexivity.
    + rewrite (lookup_insert_ne m i sym x Hne). unfold price_step at 1.
      destruct (map_fold price_step ps m !! i);
        rewrite ?(lookup_insert_ne _ i sym _ Hne); apply IH.
Qed.

End LedgerFacts.

(** X1: [add_position] either refuses (cost above cash: returns False and
    changes nothing) or accepts, takes exactly the cost out of cash, never
    leaves cash negative, appends one "BUY" record with status "OPEN", and
    leaves the realized P&L unchanged. *)
Theorem add_position_cash_guard pm sym qty price strat sl tp b pm' :
  PortfolioOps.add_position pm sym qty price strat sl tp = Some (b, pm') ->
  (b = false /\ pm' = pm /\ Ledger.cash pm < inject_Z qty * price)
  \/ (b = true /\ inject_Z qty * price <= Ledger.cash pm
      /\ Ledger.cash pm' == Ledger.cash pm - inject_Z qty * price
      /\ 0 <= Ledger.cash pm'
      /\ (exists t, Ledger.trade_history pm' = Ledger.trade_history pm ++ [t]
             /\ Ledger.t_action t = "BUY" /\ Ledger.t_status t = "OPEN"
             /\ Ledger.t_quantity t = qty /\ Ledger.t_entry_price t = price)
      /\ PortfolioOps.get_realized_pnl pm' = PortfolioOps.get_realized_pnl pm).
Proof.
  unfold PortfolioOps.add_position. cbv beta iota zeta.
  destruct (Qlt_bool (Ledger.cash pm) (inject_Z qty * price)) eqn:E.
  - intros H. injection H as Hb Hpm. subst b pm'. left. qcase E.
    split; [reflexivity|]. split; [reflexivity|exact E].
  - qcase E.
    destruct (Ledger.positions pm !! sym) as [e|];
      [destruct (Z.eqb (Ledger.quantity e + qty) 0)|];
      intros H; try discriminate; injection H as Hb Hpm; subst b pm'; right;
      cbn [Ledger.cash Ledger.trade_history];
      (split; [reflexivity|]); (split; [exact E|]); (split; [reflexivity|]);
      (split; [apply (proj1 (Qle_minus_iff _ _)); exact E|]);
      (split; [eexists; split; [reflexivity|]; repeat split; reflexivity|]);
      unfold PortfolioOps.get_realized_pnl; cbn [Ledger.trade_history];
      rewrite LedgerFacts.realized_fold_app; reflexivity.
Qed.

Lemma add_position_cash_guard_witness :
  exists b pm',
    PortfolioOps.add_position Inputs.pm0 "MSFT" 5 200 "momentum" None None = Some (b, pm')
    /\ 0 <= Ledger.cash pm'.
Proof.
  do 2 eexists. split; [reflexivity|].
  destruct (add_position_cash_guard Inputs.pm0 "MSFT" 5 200 "momentum" None None _ _ eq_refl)
    as [(_ & _ & H) | (_ & _ & _ & H & _)].
  - exfalso. vm_compute in H. discriminate.
  - exact H.
Defined.

(** X2: adding to a held symbol (with enough cash and a nonzero total)
    merges into one position whose quantity is the sum and whose cost
    basis (quantity times average entry price) is the old cost basis plus
    the new cost; its mark becomes the new price. *)
Theorem add_position_average_cost pm sym qty price strat sl tp e :
  Ledger.positions pm !! sym = Some e ->
  inject_Z qty * price <= Ledger.cash pm ->
  (Ledger.quantity e + qty <> 0)%Z ->
  exists pm' p',
    PortfolioOps.add_position pm sym qty price strat sl tp = Some (true, pm')
    /\ Ledger.positions pm' !! sym = Some p'
    /\ Ledger.quantity p' = (Ledger.quantity e + qty)%Z
    /\ inject_Z (Ledger.quantity p') * Ledger.entry_price p'
       == inject_Z (Ledger.quantity e) * Ledger.entry_price e + inject_Z qty * price
    /\ Ledger.current_price p' = price.
Proof.
  intros He Hc Hq. unfold PortfolioOps.add_position. cbv beta iota zeta.
  rewrite (proj2 (Qlt_bool_false _ _) Hc), He. cbv beta iota zeta.
  rewrite (proj2 (Z.eqb_neq _ _) Hq). cbv beta iota zeta.
  do 2 eexists. split; [reflexivity|].
  split; [cbn [Ledger.positions]; apply lookup_insert_eq|].
  cbn [Ledger.quantity Ledger.entry_price Ledger.current_price].
  split; [reflexivity|]. split; [|reflexivity].
  assert (Hnz : ~ inject_Z (Ledger.quantity e + qty) == 0).
  { intros Hz. apply Hq. apply inject_Z_injective. exact Hz. }
  field. exact Hnz.
Qed.

Lemma add_position_average_cost_witness :
  exists pm' p',
    PortfolioOps.add_position Inputs.pm0 "AAPL" 10 110 "momentum" None None = Some (true, pm')
    /\ Ledger.positions pm' !! "AAPL" = Some p'
    /\ inject_Z (Ledger.quantity p') * Ledger.entry_price p' == 2100.
Proof.
  destruct (add_position_average_cost Inputs.pm0 "AAPL" 10 110 "momentum" None None
              Inputs.aapl10 eq_refl ltac:(vm_compute; discriminate) ltac:(vm_compute; discriminate))
    as (pm' & p' & H1 & H2 & _ & H4 & _).
  exists pm', p'. split; [exact H1|]. split; [exact H2|].
  rewrite H4. reflexivity.
Defined.

(** X3: opening a new symbol with enough cash leaves
    [get_portfolio_value] unchanged: the cost leaves cash and comes back as
    the position's market value at the purchase price. *)
Theorem add_new_position_keeps_value pm sym qty price strat sl tp :
  Ledger.positions pm !! sym = None ->
  inject_Z qty * price <= Ledger.cash pm ->
  exists pm',
    PortfolioOps.add_position pm sym qty price strat sl tp = Some (true, pm')
    /\ PortfolioOps.get_portfolio_value pm' == PortfolioOps.get_portfolio_value pm.
Proof.
  intros Hn Hc. unfold PortfolioOps.add_position. cbv beta iota zeta.
  rewrite (proj2 (Qlt_bool_false _ _) Hc), Hn. cbv beta iota zeta.
  eexists. split; [reflexivity|].
  unfold PortfolioOps.get_portfolio_value, PortfolioOps.get_positions_value.
  cbn [Ledger.cash Ledger.positions].
  change (map_fold _ 0 ?m) with (LedgerFacts.pv_fold m).
  rewrite (LedgerFacts.pv_fold_insert_None _ _ _ Hn).
  unfold PortfolioOps.market_value. cbn [Ledger.quantity Ledger.current_price]. ring.
Qed.

Lemma add_new_position_keeps_value_witness :
  exists pm',
    PortfolioOps.add_position Inputs.pm0 "MSFT" 5 200 "momentum" None None = Some (true, pm')
    /\ PortfolioOps.get_portfolio_value pm' == PortfolioOps.get_portfolio_value Inputs.pm0.
Proof.
  exact (add_new_position_keeps_value Inputs.pm0 "MSFT" 5 200 "momentum" None None
           eq_refl ltac:(vm_compute; discriminate)).
Defined.

(** X4: closing a held position, in full or in part and whatever quantity
    is asked, at its current price leaves [get_portfolio_value] unchanged. *)
Theorem close_at_mark_keeps_value pm sym p qty :
  Ledger.positions pm !! sym = Some p ->
  PortfolioOps.get_portfolio_value
    (snd (Ledger.close_position pm sym (Ledger.current_price p) qty))
  == PortfolioOps.get_portfolio_value pm.
Proof.
  intros Hp.
  unfold PortfolioOps.get_portfolio_value, PortfolioOps.get_positions_value.
  change (map_fold _ 0 ?m) with (LedgerFacts.pv_fold m).
  unfold Ledger.close_position. rewrite Hp. cbv beta iota zeta.
  cbn [snd Ledger.cash Ledger.positions].
  rewrite (LedgerFacts.pv_fold_delete _ _ _ Hp).
  unfold PortfolioOps.market_value.
  match goal with |- context [Z.ltb (Ledger.quantity p) ?c] =>
    remember c as c0 eqn:Hc0; clear Hc0 end.
  destruct (Z.ltb (Ledger.quantity p) c0) eqn:Elt.
  - assert (G : Z.geb (Ledger.quantity p) (Ledger.quantity p) = true)
      by (apply Z.geb_le; lia).
    rewrite G. ring.
  - apply Z.ltb_ge in Elt.
    destruct (Z.geb c0 (Ledger.quantity p)) eqn:Ege.
    + apply Z.geb_le in Ege.
      assert (Eq : c0 = Ledger.quantity p) by lia. rewrite Eq. ring.
    + rewrite LedgerFacts.pv_fold_insert.
      unfold PortfolioOps.market_value.
      cbn [Ledger.quantity Ledger.current_price Ledger.with_quantity].
      rewrite LedgerFacts.inject_Z_sub. ring.
Qed.

Lemma close_at_mark_keeps_value_witness :
  PortfolioOps.get_portfolio_value
    (snd (Ledger.close_position Inputs.pm0 "AAPL" (Ledger.current_price Inputs.aapl10) (Some 4%Z)))
  == PortfolioOps.get_portfolio_value Inputs.pm0.
Proof.
  exact (close_at_mark_keeps_value Inputs.pm0 "AAPL" Inputs.aapl10 (Some 4%Z) eq_refl).
Defined.

(** X5: buying a symbol not held and closing it in full at the same price
    restores the positions dict and the cash exactly, the SELL record has
    P&L 0 and the realized P&L is unchanged. *)
Theorem add_then_close_round_trip pm sym qty price strat sl tp :
  Ledger.positions pm !! sym = None ->
  inject_Z qty * price <= Ledger.cash pm ->
  exists pm1 t pm2,
    PortfolioOps.add_position pm sym qty price strat sl tp = Some (true, pm1)
    /\ Ledger.close_position pm1 sym price None = (Some t, pm2)
    /\ Ledger.positions pm2 = Ledger.positions pm
    /\ Ledger.cash pm2 == Ledger.cash pm
    /\ Ledger.t_pnl t == 0
    /\ PortfolioOps.get_realized_pnl pm2 == PortfolioOps.get_realized_pnl pm.
Proof.
  intros Hn Hc. unfold PortfolioOps.add_position. cbv beta iota zeta.
  rewrite (proj2 (Qlt_bool_false _ _) Hc), Hn. cbv beta iota zeta.
  do 3 eexists. split; [reflexivity|].
  unfold Ledger.close_position. cbn [Ledger.positions]. rewrite lookup_insert_eq.
  cbv beta iota zeta. cbn [Ledger.quantity Ledger.entry_price].
  rewrite Z.ltb_irrefl.
  assert (G : Z.geb qty qty = true) by (apply Z.geb_le; lia). rewrite G.
  split; [reflexivity|].
  cbn [Ledger.cash Ledger.positions Ledger.trade_history Ledger.t_pnl].
  split; [apply delete_insert_id; exact Hn|].
  split; [ring|]. split; [ring|].
  unfold PortfolioOps.get_realized_pnl. cbn [Ledger.trade_history].
  rewrite !LedgerFacts.realized_fold_app. cbn [Ledger.t_status Ledger.t_pnl].
  change (String.eqb "CLOSED" "CLOSED") with true.
  change (String.eqb "OPEN" "CLOSED") with false.
  cbv beta iota. ring.
Qed.

Lemma add_then_close_round_trip_witness :
  exists pm1 t pm2,
    PortfolioOps.add_position Inputs.pm0 "MSFT" 5 200 "momentum" None None = Some (true, pm1)
    /\ Ledger.close_position pm1 "MSFT" 200 None = (Some t, pm2)
    /\ Ledger.positions pm2 = Ledger.positions Inputs.pm0.
Proof.
  destruct (add_then_close_round_trip Inputs.pm0 "MSFT" 5 200 "momentum" None None
              eq_refl ltac:(vm_compute; discriminate))
    as (pm1 & t & pm2 & H1 & H2 & H3 & _).
  exists pm1, t, pm2. auto.
Defined.

(** X6: each [close_position] that returns a trade adds exactly that
    trade's P&L to [get_realized_pnl]. *)
Theorem realized_pnl_after_close pm sym price qty t pm' :
  Ledger.close_position pm sym price qty = (Some t, pm') ->
  PortfolioOps.get_realized_pnl pm' == PortfolioOps.get_realized_pnl pm + Ledger.t_pnl t.
Proof.
  unfold Ledger.close_position.
  destruct (Ledger.positions pm !! sym) as [p|]; [|discriminate].
  cbv beta iota zeta. intros H. injection H as Ht Hpm. subst t pm'.
  unfold PortfolioOps.get_realized_pnl. cbn [Ledger.trade_history].
  rewrite LedgerFacts.realized_fold_app. cbn [Ledger.t_status Ledger.t_pnl].
  change (String.eqb "CLOSED" "CLOSED") with true. cbv beta iota. reflexivity.
Qed.

Lemma realized_pnl_after_close_witness :
  exists t pm',
    Ledger.close_position Inputs.pm0 "AAPL" 120 (Some 4%Z) = (Some t, pm')
    /\ PortfolioOps.get_realized_pnl pm' == 80.
Proof.
  do 2 eexists. split; [reflexivity|].
  rewrite (realized_pnl_after_close Inputs.pm0 "AAPL" 120 (Some 4%Z) _ _ eq_refl).
  vm_compute. reflexivity.
Defined.

(** X7: [update_prices] re-marks each held symbol listed in [prices] at its
    new price, leaves every other position as it was, never adds a
    position for a symbol not held, and does not touch cash or the trade
    history. *)
Theorem update_prices_lookup pm prices sym :
  Ledger.positions (PortfolioOps.update_prices pm prices) !! sym
  = (fun p => match prices !! sym with
              | Some c => PortfolioOps.with_current_price p c
              | None => p
              end) <$> Ledger.positions pm !! sym
  /\ Ledger.cash (PortfolioOps.update_prices pm prices) = Ledger.cash pm
  /\ Ledger.trade_history (PortfolioOps.update_prices pm prices) = Ledger.trade_history pm.
Proof.
  split; [|split; reflexivity].
  exact (LedgerFacts.price_fold_lookup prices (Ledger.positions pm) sym).
Qed.

(** ** Nested position store *)

Module StoreFacts.
Import Executor PositionStore.

(** The store keeps no empty strategy dictionary. *)
Definition wf (s : store) : Prop :=
  forall sid inner, s !! sid = Some inner -> inner <> ∅.

Lemma add_position_snd s sid sym sh ep sl tp :
  snd (add_position s sid sym sh ep sl tp)
  = <[sid := <[sym := fst (add_position s sid sym sh ep sl tp)]>
              (get_strategy_positions s sid)]> s.
Proof.
  unfold add_position. cbv beta iota zeta. cbn [fst snd].
  unfold get_strategy_positions.
  destruct (s !! sid) eqn:E.
  - rewrite E. reflexivity.
  - rewrite lookup_insert_eq, insert_insert_eq. reflexivity.
Qed.

Lemma has_position_alt s sid sym :
  has_position s sid sym = bool_decide (is_Some (get_strategy_positions s sid !! sym)).
Proof.
  unfold has_position, get_strategy_positions.
  destruct (s !! sid); [reflexivity|]. rewrite lookup_empty. reflexivity.
Qed.

Lemma get_position_alt s sid sym :
  get_position s sid sym = get_strategy_positions s sid !! sym.
Proof.
  unfold get_position. rewrite has_position_alt. unfold get_strategy_positions.
  destruct (s !! sid) as [inner|].
  - destruct (inner !! sym) eqn:E; [reflexivity|].
    rewrite bool_decide_eq_false_2; [reflexivity|]. intros [? ?]; discriminate.
  - rewrite lookup_empty. reflexivity.
Qed.

Lemma gsp_insert_eq s sid x : get_strategy_positions (<[sid := x]> s) sid = x.
Proof. unfold get_strategy_positions. rewrite lookup_insert_eq. reflexivity. Qed.

Lemma gsp_insert_ne s sid sid' x :
  sid' <> sid -> get_strategy_positions (<[sid := x]> s) sid' = get_strategy_positions s sid'.
Proof. intros H. unfold get_strategy_positions. rewrite lookup_insert_ne by congruence. reflexivity. Qed.

Lemma tc_insert (s : store) i x :
  total_count (<[i := x]> s) = (size x + total_count (delete i s))%nat.
Proof.
  rewrite <- insert_delete_eq. unfold total_count.
  apply (map_fold_insert_L (fun (_ : string) (inner : gmap string Position) acc =>
                              (size inner + acc)%nat) 0%nat i x (delete i s)).
  - intros. lia.
  - apply lookup_delete_eq.
Qed.

Lemma tc_delete (s : store) i x :
  s !! i = Some x -> total_count s = (size x + total_count (delete i s))%nat.
Proof.
  intros H. rewrite <- (insert_delete_id s i x H) at 1.
  rewrite tc_insert, delete_delete_eq. reflexivity.
Qed.

Lemma size_pop (inner : gmap string Position) sym p :
  inner !! sym = Some p -> size inner = S (size (delete sym inner)).
Proof.
  intros H. rewrite <- (insert_delete_id inner sym p H) at 1.
  apply map_size_insert_None. apply lookup_delete_eq.
Qed.

End StoreFacts.

(** X8: after [add_position s sid sym ...], [get_position] returns the new
    position for [(sid, sym)] and answers every other (strategy, symbol)
    pair as before. *)
Theorem store_add_then_get s sid sym sh ep sl tp sid' sym' :
  PositionStore.get_position (snd (PositionStore.add_position s sid sym sh ep sl tp)) sid' sym'
  = if decide ((sid', sym') = (sid, sym))
    then Some (fst (PositionStore.add_position s sid sym sh ep sl tp))
    else PositionStore.get_position s sid' sym'.
Proof.
  rewrite !StoreFacts.get_position_alt, StoreFacts.add_position_snd.
  destruct (decide (sid' = sid)) as [->|Hs].
  - rewrite StoreFacts.gsp_insert_eq. destruct (decide (sym' = sym)) as [->|Hy].
    + rewrite decide_True by reflexivity. apply lookup_insert_eq.
    + rewrite decide_False by congruence. apply lookup_insert_ne. congruence.
  - rewrite decide_False by congruence. rewrite StoreFacts.gsp_insert_ne by exact Hs.
    reflexivity.
Qed.

(** X9: on a store with no empty strategy dictionary, adding a position
    for a pair not held and then removing it returns that position and
    gives back exactly the original store. *)
Theorem store_add_remove_round_trip s sid sym sh ep sl tp :
  StoreFacts.wf s ->
  PositionStore.has_position s sid sym = false ->
  PositionStore.remove_position (snd (PositionStore.add_position s sid sym sh ep sl tp)) sid sym
  = (Some (fst (PositionStore.add_position s sid sym sh ep sl tp)), s).
Proof.
  intros Hwf Hn. rewrite StoreFacts.add_position_snd.
  rewrite StoreFacts.has_position_alt in Hn.
  assert (Hn' : PositionStore.get_strategy_positions s sid !! sym = None).
  { destruct (PositionStore.get_strategy_positions s sid !! sym) eqn:E; [|reflexivity].
    rewrite bool_decide_eq_true_2 in Hn; [discriminate|eauto]. }
  unfold PositionStore.remove_position.
  rewrite StoreFacts.has_position_alt, StoreFacts.gsp_insert_eq, lookup_insert_eq.
  rewrite bool_decide_eq_true_2 by eauto. cbn [negb].
  rewrite lookup_insert_eq. cbv beta iota. rewrite lookup_insert_eq. cbv beta iota zeta.
  rewrite (delete_insert_id _ _ _ Hn').
  destruct (bool_decide (PositionStore.get_strategy_positions s sid = ∅)) eqn:Eb.
  - apply bool_decide_eq_true_1 in Eb.
    rewrite !delete_insert_eq. f_equal. apply delete_id.
    unfold PositionStore.get_strategy_positions in Eb.
    destruct (s !! sid) as [inner|] eqn:E; [|reflexivity].
    exfalso. exact (Hwf sid inner E Eb).
  - apply bool_decide_eq_false_1 in Eb.
    rewrite insert_insert_eq. f_equal. apply insert_id.
    unfold PositionStore.get_strategy_positions in *.
    destruct (s !! sid) as [inner|] eqn:E; [reflexivity|].
    exfalso. exact (Eb eq_refl).
Qed.

Lemma store_add_remove_round_trip_witness :
  PositionStore.remove_position
    (snd (PositionStore.add_position ∅ "s1" "AAPL" 10 100 (Some 95) None)) "s1" "AAPL"
  = (Some (fst (PositionStore.add_position ∅ "s1" "AAPL" 10 100 (Some 95) None)), ∅).
Proof.
  apply store_add_remove_round_trip.
  - intros sid inner H. rewrite lookup_empty in H. discriminate.
  - reflexivity.
Defined.

(** X10: [add_position], [remove_position] and [clear_strategy_positions]
    never leave an empty strategy dictionary behind in a store that has
    none. *)
Theorem store_no_empty_strategy s sid sym sh ep sl tp :
  StoreFacts.wf s ->
  StoreFacts.wf (snd (PositionStore.add_position s sid sym sh ep sl tp))
  /\ StoreFacts.wf (snd (PositionStore.remove_position s sid sym))
  /\ StoreFacts.wf (snd (PositionStore.clear_strategy_positions s sid)).
Proof.
  intros Hwf. split; [|split].
  - rewrite StoreFacts.add_position_snd. intros sid' inner H.
    destruct (decide (sid' = sid)) as [->|Hne].
    + rewrite lookup_insert_eq in H. injection H as <-. apply insert_non_empty.
    + rewrite lookup_insert_ne in H by congruence. exact (Hwf _ _ H).
  - unfold PositionStore.remove_position.
    destruct (PositionStore.has_position s sid sym); cbn [negb]; [|exact Hwf].
    destruct (s !! sid) as [inner|] eqn:E; [|exact Hwf].
    destruct (inner !! sym) as [p|]; [|exact Hwf].
    destruct (bool_decide (delete sym inner = ∅)) eqn:Eb; cbn [snd];
      intros sid' i H; destruct (decide (sid' = sid)) as [->|Hne].
    + rewrite lookup_delete_eq in H. discriminate.
    + rewrite lookup_delete_ne, lookup_insert_ne in H by congruence. exact (Hwf _ _ H).
    + rewrite lookup_insert_eq in H. injection H as <-.
      apply bool_decide_eq_false_1 in Eb. exact Eb.
    + rewrite lookup_insert_ne in H by congruence. exact (Hwf _ _ H).
  - unfold PositionStore.clear_strategy_positions.
    destruct (s !! sid) eqn:E; cbn [snd]; [|exact Hwf].
    intros sid' i H. destruct (decide (sid' = sid)) as [->|Hne].
    + rewrite lookup_delete_eq in H. discriminate.
    + rewrite lookup_delete_ne in H by congruence. exact (Hwf _ _ H).
Qed.

Lemma store_no_empty_strategy_witness :
  StoreFacts.wf (snd (PositionStore.remove_position
    (snd (PositionStore.add_position ∅ "s1" "AAPL" 10 100 (Some 95) None)) "s1" "MSFT")).
Proof.
  apply (store_no_empty_strategy
           (snd (PositionStore.add_position ∅ "s1" "AAPL" 10 100 (Some 95) None))
           "s1" "MSFT" 0 0 None None).
  apply (store_no_empty_strategy ∅ "s1" "AAPL" 10 100 (Some 95) None).
  intros sid inner H. rewrite lookup_empty in H. discriminate.
Defined.

(** X11: [get_position_count()] (all strategies) goes up by one when
    [add_position] opens a new pair and is unchanged when it overwrites
    one; it goes down by one exactly when [remove_position] finds the pair;
    [clear_strategy_positions] returns how many positions it removed from
    the total. *)
Theorem store_counts s sid sym sh ep sl tp :
  PositionStore.get_position_count (snd (PositionStore.add_position s sid sym sh ep sl tp)) None
    = (if PositionStore.has_position s sid sym
       then PositionStore.get_position_count s None
       else S (PositionStore.get_position_count s None))
  /\ (PositionStore.get_position_count (snd (PositionStore.remove_position s sid sym)) None
      + (if PositionStore.has_position s sid sym then 1 else 0))%nat
     = PositionStore.get_position_count s None
  /\ (fst (PositionStore.clear_strategy_positions s sid)
      + PositionStore.get_position_count (snd (PositionStore.clear_strategy_positions s sid)) None)%nat
     = PositionStore.get_position_count s None.
Proof.
  unfold PositionStore.get_position_count. split; [|split].
  - rewrite StoreFacts.add_position_snd, StoreFacts.has_position_alt, StoreFacts.tc_insert,
      map_size_insert.
    unfold PositionStore.get_strategy_positions.
    destruct (s !! sid) as [inner|] eqn:E.
    + rewrite (StoreFacts.tc_delete s sid inner E).
      destruct (inner !! sym) eqn:Ei.
      * rewrite bool_decide_eq_true_2 by eauto. reflexivity.
      * rewrite bool_decide_eq_false_2 by (intros [? ?]; discriminate). reflexivity.
    + rewrite lookup_empty, map_size_empty, (delete_id s sid E).
      rewrite bool_decide_eq_false_2 by (intros [? ?]; discriminate). reflexivity.
  - unfold PositionStore.remove_position.
    destruct (PositionStore.has_position s sid sym) eqn:Eh; cbn [negb];
      [|cbn [snd]; lia].
    unfold PositionStore.has_position in Eh.
    destruct (s !! sid) as [inner|] eqn:E; [|discriminate].
    destruct (inner !! sym) as [p|] eqn:Ei;
      [|rewrite bool_decide_eq_false_2 in Eh by (intros [? ?]; discriminate); discriminate].
    rewrite (StoreFacts.tc_delete s sid inner E), (StoreFacts.size_pop inner sym p Ei).
    destruct (bool_decide (delete sym inner = ∅)) eqn:Eb; cbn [snd].
    + apply bool_decide_eq_true_1 in Eb.
      rewrite (delete_insert_eq s sid (delete sym inner)), Eb, map_size_empty. lia.
    + rewrite StoreFacts.tc_insert. lia.
  - unfold PositionStore.clear_strategy_positions.
    destruct (s !! sid) as [inner|] eqn:E; cbn [fst snd].
    + rewrite (StoreFacts.tc_delete s sid inner E). reflexivity.
    + reflexivity.
Qed.

(** ** The daily risk manager's manual halt, statistics and resume *)

Module DailyAdminFacts.
Import DailyRisk DailyAdmin.

Lemma update_keeps_reason (day : Z) (v : Q) (s : DailyRiskManager) :
  today s = day -> trading_halted s = true ->
  halt_reason (snd (update_portfolio_value day v s)) = halt_reason s.
Proof.
  intros Hd Hh. unfold update_portfolio_value. rewrite (DailyFacts.reset_daily_same day s Hd).
  destruct (starting_portfolio_value s) as [st|]; cbn [truthy_q];
    [destruct (negb (Qeq_bool st 0)) | destruct (negb (Qeq_bool v 0))]; cbn;
    try (rewrite Hh; cbn); try (destruct (Qle_bool _ _); cbn; try rewrite Hh; cbn);
    auto.
Qed.

Lemma run_keeps_reason (day : Z) (calls : list call) (s : DailyRiskManager) :
  today s = day -> trading_halted s = true ->
  halt_reason (run day calls s) = halt_reason s.
Proof.
  unfold run. revert s. induction calls as [|c cs IH]; intros s Hd Hh; cbn [fold_left].
  - reflexivity.
  - destruct c as [v|]; cbn [step].
    + destruct (DailyFacts.update_keeps_halt day v s Hd Hh) as (Hd' & Hh' & _).
      rewrite (IH _ Hd' Hh'). apply update_keeps_reason; assumption.
    + rewrite (DailyFacts.can_trade_keeps day s Hd). apply IH; assumption.
Qed.

(** On a fresh day's first update the percentage is [(v - v) / v * 100 = 0]. *)
Lemma zero_pct_le (v m : Q) :
  Qle_bool ((v - v) / v * 100) (- (m * 100)) = true <-> m <= 0.
Proof.
  rewrite Qle_bool_iff.
  assert (Z0 : (v - v) / v * 100 == 0) by (unfold Qdiv; ring).
  rewrite Z0. destruct m as [n d]. unfold Qle. cbn. lia.
Qed.

End DailyAdminFacts.

(** X12: a manual halt made today blocks [can_trade] with the given reason
    for the rest of the day, whatever updates (even gains) and checks
    follow; on any other day [can_trade] allows trading again. *)
Theorem manual_halt_until_next_day s r day day' calls :
  DailyRisk.today s = day -> day' <> day ->
  fst (DailyRisk.can_trade day (DailyRisk.run day calls (DailyAdmin.manual_halt r s)))
  = (false, Some r)
  /\ fst (DailyRisk.can_trade day' (DailyRisk.run day calls (DailyAdmin.manual_halt r s)))
     = (true, None).
Proof.
  intros Hd Hne.
  assert (Hd0 : DailyRisk.today (DailyAdmin.manual_halt r s) = day) by exact Hd.
  assert (Hh0 : DailyRisk.trading_halted (DailyAdmin.manual_halt r s) = true) by reflexivity.
  destruct (DailyFacts.run_keeps_halt day calls _ Hd0 Hh0) as (Hd1 & Hh1 & _).
  pose proof (DailyAdminFacts.run_keeps_reason day calls _ Hd0 Hh0) as Hr1.
  split.
  - unfold DailyRisk.can_trade. cbv beta zeta.
    rewrite (DailyFacts.reset_daily_same day _ Hd1), Hh1, Hr1. reflexivity.
  - unfold DailyRisk.can_trade, DailyRisk.reset_daily. cbv beta zeta. rewrite Hd1.
    assert (E : Z.eqb day' day = false) by (apply Z.eqb_neq; exact Hne).
    rewrite E. reflexivity.
Qed.

Lemma manual_halt_until_next_day_witness :
  fst (DailyRisk.can_trade 1 (DailyRisk.run 1 Inputs.recovery_calls
         (DailyAdmin.manual_halt "maintenance" Inputs.day_start))) = (false, Some "maintenance")
  /\ fst (DailyRisk.can_trade 2 (DailyRisk.run 1 Inputs.recovery_calls
            (DailyAdmin.manual_halt "maintenance" Inputs.day_start))) = (true, None).
Proof.
  apply (manual_halt_until_next_day Inputs.day_start "maintenance" 1 2 Inputs.recovery_calls).
  - vm_compute. reflexivity.
  - discriminate.
Defined.

(** X13: when no update has been made today, [get_daily_stats] reports
    trading as not halted with no reason even right after [manual_halt],
    while [can_trade] refuses with the halt reason. *)
Theorem stats_hide_manual_halt s r day :
  DailyRisk.today s = day -> DailyRisk.starting_portfolio_value s = None ->
  DailyAdmin.st_trading_halted (fst (DailyAdmin.get_daily_stats day (DailyAdmin.manual_halt r s)))
  = false
  /\ DailyAdmin.st_halt_reason (fst (DailyAdmin.get_daily_stats day (DailyAdmin.manual_halt r s)))
     = None
  /\ fst (DailyRisk.can_trade day (DailyAdmin.manual_halt r s)) = (false, Some r).
Proof.
  intros Hd Hs.
  assert (Hd0 : DailyRisk.today (DailyAdmin.manual_halt r s) = day) by exact Hd.
  unfold DailyAdmin.get_daily_stats, DailyRisk.can_trade. cbv beta zeta.
  rewrite !(DailyFacts.reset_daily_same day _ Hd0).
  unfold DailyAdmin.manual_halt. cbn [DailyRisk.starting_portfolio_value DailyRisk.trading_halted
                                     DailyRisk.halt_reason].
  rewrite Hs. cbn. auto.
Qed.

Lemma stats_hide_manual_halt_witness :
  DailyAdmin.st_trading_halted
    (fst (DailyAdmin.get_daily_stats 1 (DailyAdmin.manual_halt "news" (DailyRisk.init (2 # 100) 1))))
  = false
  /\ DailyAdmin.st_halt_reason
       (fst (DailyAdmin.get_daily_stats 1 (DailyAdmin.manual_halt "news" (DailyRisk.init (2 # 100) 1))))
     = None
  /\ fst (DailyRisk.can_trade 1 (DailyAdmin.manual_halt "news" (DailyRisk.init (2 # 100) 1)))
     = (false, Some "news").
Proof.
  apply (stats_hide_manual_halt (DailyRisk.init (2 # 100) 1) "news" 1); reflexivity.
Defined.

(** X14: [resume_trading] only clears the flag: on the same day, the next
    update whose loss still reaches the limit refuses trading, halts again
    with the limit reason and logs a new breach. *)
Theorem resume_rehalts_on_loss s day v st :
  DailyRisk.today s = day -> DailyRisk.starting_portfolio_value s = Some st -> ~ st == 0 ->
  (v - st) / st * 100 <= - (DailyRisk.max_daily_loss_percent s * 100) ->
  fst (DailyRisk.update_portfolio_value day v (DailyRisk.resume_trading s)) = false
  /\ DailyRisk.trading_halted (snd (DailyRisk.update_portfolio_value day v (DailyRisk.resume_trading s)))
     = true
  /\ DailyRisk.halt_reason (snd (DailyRisk.update_portfolio_value day v (DailyRisk.resume_trading s)))
     = Some DailyRisk.limit_reason
  /\ DailyRisk.breach_logs (snd (DailyRisk.update_portfolio_value day v (DailyRisk.resume_trading s)))
     = S (DailyRisk.breach_logs s).
Proof.
  intros Hd Hst Hnz Hle.
  assert (Hd0 : DailyRisk.today (DailyRisk.resume_trading s) = day) by exact Hd.
  assert (Ez : Qeq_bool st 0 = false).
  { destruct (Qeq_bool st 0) eqn:E; [apply Qeq_bool_iff in E; contradiction|reflexivity]. }
  unfold DailyRisk.update_portfolio_value. cbv beta zeta.
  rewrite (DailyFacts.reset_daily_same day _ Hd0).
  unfold DailyRisk.resume_trading.
  cbn [DailyRisk.starting_portfolio_value DailyRisk.trading_halted DailyRisk.halt_reason
       DailyRisk.max_daily_loss_percent DailyRisk.breach_logs DailyRisk.today
       DailyRisk.daily_pnl DailyRisk.current_portfolio_value].
  rewrite Hst. cbn [truthy_q]. rewrite Ez. cbn [negb].
  apply Qle_bool_iff in Hle. rewrite Hle. cbn. auto.
Qed.

Lemma resume_rehalts_on_loss_witness :
  fst (DailyRisk.update_portfolio_value 1 97500
         (DailyRisk.resume_trading (snd (DailyRisk.update_portfolio_value 1 97000 Inputs.day_start))))
  = false
  /\ DailyRisk.trading_halted (snd (DailyRisk.update_portfolio_value 1 97500
         (DailyRisk.resume_trading (snd (DailyRisk.update_portfolio_value 1 97000 Inputs.day_start)))))
     = true
  /\ DailyRisk.halt_reason (snd (DailyRisk.update_portfolio_value 1 97500
         (DailyRisk.resume_trading (snd (DailyRisk.update_portfolio_value 1 97000 Inputs.day_start)))))
     = Some DailyRisk.limit_reason
  /\ DailyRisk.breach_logs (snd (DailyRisk.update_portfolio_value 1 97500
         (DailyRisk.resume_trading (snd (DailyRisk.update_portfolio_value 1 97000 Inputs.day_start)))))
     = S (DailyRisk.breach_logs (snd (DailyRisk.update_portfolio_value 1 97000 Inputs.day_start))).
Proof.
  apply (resume_rehalts_on_loss (snd (DailyRisk.update_portfolio_value 1 97000 Inputs.day_start))
           1 97500 100000).
  - vm_compute. reflexivity.
  - vm_compute. reflexivity.
  - intros H. vm_compute in H. discriminate.
  - vm_compute. discriminate.
Defined.

(** X15: the first update of a day (a new day, or no starting value yet)
    takes the current value as the starting value, so the loss is 0%: it
    refuses trading exactly when the value is nonzero and the configured
    loss limit is at most 0. *)
Theorem first_update_of_day s day v :
  (DailyRisk.today s <> day \/ DailyRisk.starting_portfolio_value s = None) ->
  (fst (DailyRisk.update_portfolio_value day v s) = false
   <-> ~ v == 0 /\ DailyRisk.max_daily_loss_percent s <= 0).
Proof.
  intros H.
  assert (Hr : DailyRisk.starting_portfolio_value (DailyRisk.reset_daily day s) = None
               /\ DailyRisk.max_daily_loss_percent (DailyRisk.reset_daily day s)
                  = DailyRisk.max_daily_loss_percent s).
  { unfold DailyRisk.reset_daily. destruct (Z.eqb day (DailyRisk.today s)) eqn:E; cbn [negb].
    - destruct H as [H|H]; [apply Z.eqb_eq in E; congruence | split; [exact H | reflexivity]].
    - split; reflexivity. }
  destruct Hr as [Hs Hm].
  unfold DailyRisk.update_portfolio_value. cbv beta zeta. rewrite Hs. cbv iota.
  cbn [truthy_q DailyRisk.max_daily_loss_percent DailyRisk.trading_halted].
  rewrite Hm.
  destruct (Qeq_bool v 0) eqn:Ev; cbn [negb].
  - cbn [fst]. split; [discriminate|].
    intros [Hv _]. apply Qeq_bool_iff in Ev. contradiction.
  - destruct (Qle_bool ((v - v) / v * 100) (- (DailyRisk.max_daily_loss_percent s * 100))) eqn:Eq.
    + apply DailyAdminFacts.zero_pct_le in Eq.
      destruct (negb (DailyRisk.trading_halted (DailyRisk.reset_daily day s))); cbn [fst].
      * split; [intros _|reflexivity]. split; [|exact Eq].
        intros Hv. apply Qeq_bool_iff in Hv. congruence.
      * split; [intros _|reflexivity]. split; [|exact Eq].
        intros Hv. apply Qeq_bool_iff in Hv. congruence.
    + cbn [fst]. split; [discriminate|]. intros [_ Hle].
      apply (proj2 (DailyAdminFacts.zero_pct_le v _)) in Hle. congruence.
Qed.

Lemma first_update_of_day_witness :
  fst (DailyRisk.update_portfolio_value 1 100000 (DailyRisk.init 0 1)) = false
  <-> ~ 100000 == 0 /\ DailyRisk.max_daily_loss_percent (DailyRisk.init 0 1) <= 0.
Proof.
  apply (first_update_of_day (DailyRisk.init 0 1) 1 100000). right. reflexivity.
Defined.

(** ** The order manager's status refresh, cancel and housekeeping *)

Module OrderFacts.
Import Orders.

(** What a successful [cancel_order] did: the order was stored, the call
    went through the backtest path or the broker, and the order now reads
    CANCELED with [canceled_at = now]. *)
Lemma cancel_success_shape m now cid ok :
  fst (cancel_order m now cid ok) = true ->
  exists o, orders m !! cid = Some o
    /\ (TradingMode_eqb (trading_mode m) BACKTEST = true \/ alpaca_api m = true)
    /\ snd (cancel_order m now cid ok)
       = with_orders m (<[cid := with_status o CANCELED (order_id o) (submitted_at o)
                                   (Some now) (error_message o)]> (orders m)).
Proof.
  unfold cancel_order. destruct (orders m !! cid) as [o|]; [|discriminate].
  destruct (existsb (OrderStatus_eqb (status o)) [FILLED; CANCELED; REJECTED]); [discriminate|].
  destruct (TradingMode_eqb (trading_mode m) BACKTEST) eqn:Eb.
  - intros _. exists o. auto.
  - destruct (alpaca_api m) eqn:Ea; [|discriminate].
    destruct (truthy_str (order_id o)); [|discriminate].
    destruct ok; [|discriminate]. intros _. exists o. auto.
Qed.

End OrderFacts.

(** X16: [clear_old_orders] never removes an open (SUBMITTED or
    PARTIALLY_FILLED) order, so [get_open_orders] is unchanged by it; and
    clearing twice with the same time and age removes nothing more. *)
Theorem clear_old_orders_keeps_open m now days :
  OrderAdmin.get_open_orders (OrderAdmin.clear_old_orders m now days) = OrderAdmin.get_open_orders m
  /\ OrderAdmin.clear_old_orders (OrderAdmin.clear_old_orders m now days) now days
     = OrderAdmin.clear_old_orders m now days.
Proof.
  unfold OrderAdmin.get_open_orders, OrderAdmin.clear_old_orders, Orders.with_orders.
  cbn [Orders.orders Orders.trading_mode Orders.alpaca_api].
  split.
  - apply map_filter_filter_l. intros i o _ H. cbn in *. rewrite H, orb_true_r. reflexivity.
  - f_equal. apply map_filter_filter_l. intros i o _ H. exact H.
Qed.

(** X17: a broker status missing from the status mapping (such as
    "accepted") sets the stored order to PENDING, even if it read FILLED
    before; the order then counts as cancellable again. *)
Theorem unknown_status_reopens_order m cid o a now :
  Orders.orders m !! cid = Some o ->
  Orders.truthy_str (Orders.order_id o) = true ->
  Orders.alpaca_api m = true ->
  OrderAdmin.map_status (OrderAdmin.a_status a) = Orders.PENDING ->
  exists o', Orders.stored_order (OrderAdmin.update_order_status m cid (Some a)) cid = Some o'
    /\ Orders.status o' = Orders.PENDING
    /\ fst (Orders.cancel_order (OrderAdmin.update_order_status m cid (Some a)) now cid true) = true.
Proof.
  intros Ho Hid Hapi Hst. unfold OrderAdmin.update_order_status.
  rewrite Ho. cbv beta iota. rewrite Hid, Hapi. cbn [negb].
  eexists. split; [unfold Orders.stored_order; cbn [Orders.orders Orders.with_orders];
                   apply lookup_insert_eq|].
  split; [cbn; exact Hst|].
  unfold Orders.cancel_order.
  cbn [Orders.orders Orders.with_orders Orders.trading_mode Orders.alpaca_api].
  rewrite lookup_insert_eq. cbn [Orders.status]. rewrite Hst. cbn [existsb Orders.OrderStatus_eqb orb].
  destruct (Orders.TradingMode_eqb (Orders.trading_mode m) Orders.BACKTEST); [reflexivity|].
  cbn [Orders.alpaca_api Orders.order_id]. rewrite Hapi, Hid. reflexivity.
Qed.

Lemma unknown_status_reopens_order_witness :
  exists o', Orders.stored_order
      (OrderAdmin.update_order_status
         (Inputs.manager_with Orders.LIVE true
            (Inputs.mk_order Orders.MARKET Orders.FILLED None None (Some "b1")))
         "alphaflow_1" (Some Inputs.accepted_reply)) "alphaflow_1" = Some o'
    /\ Orders.status o' = Orders.PENDING
    /\ fst (Orders.cancel_order
              (OrderAdmin.update_order_status
                 (Inputs.manager_with Orders.LIVE true
                    (Inputs.mk_order Orders.MARKET Orders.FILLED None None (Some "b1")))
                 "alphaflow_1" (Some Inputs.accepted_reply)) 5 "alphaflow_1" true) = true.
Proof.
  apply (unknown_status_reopens_order _ "alphaflow_1"
           (Inputs.mk_order Orders.MARKET Orders.FILLED None None (Some "b1"))).
  - reflexivity.
  - reflexivity.
  - reflexivity.
  - reflexivity.
Defined.

(** X18: [update_order_status m cid resp] changes at most the order stored
    under [cid] and keeps the mode and client; it changes nothing when the
    client is not initialised, when the broker call fails, or when the
    stored order has no broker id. *)
Theorem update_order_status_scope m cid resp :
  (forall cid', cid' <> cid ->
     Orders.orders (OrderAdmin.update_order_status m cid resp) !! cid' = Orders.orders m !! cid')
  /\ Orders.trading_mode (OrderAdmin.update_order_status m cid resp) = Orders.trading_mode m
  /\ Orders.alpaca_api (OrderAdmin.update_order_status m cid resp) = Orders.alpaca_api m
  /\ (Orders.alpaca_api m = false \/ resp = None
      \/ (forall o, Orders.orders m !! cid = Some o -> Orders.truthy_str (Orders.order_id o) = false)
      -> OrderAdmin.update_order_status m cid resp = m).
Proof.
  unfold OrderAdmin.update_order_status.
  destruct (Orders.orders m !! cid) as [o|] eqn:E;
    [destruct (Orders.truthy_str (Orders.order_id o)) eqn:Ei;
     [destruct (Orders.alpaca_api m) eqn:Ea; [destruct resp as [a|]|]|]|];
    cbn [negb].
  - split; [|split; [reflexivity|split; [cbn [Orders.alpaca_api Orders.with_orders]; exact Ea|]]].
    + intros cid' Hne. cbn [Orders.orders Orders.with_orders]. apply lookup_insert_ne. congruence.
    + intros [H|[H|H]]; [congruence|discriminate|].
      rewrite (H o eq_refl) in Ei. discriminate.
  - repeat split; auto.
  - repeat split; auto.
  - repeat split; auto.
  - repeat split; auto.
Qed.

(** X19: a successful [cancel_order] leaves the order CANCELED with the
    cancel time, and every later [cancel_order] on it returns [False] and
    changes nothing. *)
Theorem cancel_is_final m now cid ok now' ok' :
  fst (Orders.cancel_order m now cid ok) = true ->
  (exists o, Orders.stored_order (snd (Orders.cancel_order m now cid ok)) cid = Some o
     /\ Orders.status o = Orders.CANCELED /\ Orders.canceled_at o = Some now)
  /\ Orders.cancel_order (snd (Orders.cancel_order m now cid ok)) now' cid ok'
     = (false, snd (Orders.cancel_order m now cid ok)).
Proof.
  intros H. destruct (OrderFacts.cancel_success_shape m now cid ok H) as (o & Ho & _ & Hm).
  rewrite Hm. split.
  - eexists. split; [unfold Orders.stored_order; cbn [Orders.orders Orders.with_orders];
                     apply lookup_insert_eq|].
    split; reflexivity.
  - unfold Orders.cancel_order at 1. cbn [Orders.orders Orders.with_orders].
    rewrite lookup_insert_eq. reflexivity.
Qed.

Lemma cancel_is_final_witness :
  (exists o, Orders.stored_order
       (snd (Orders.cancel_order (Inputs.manager_with Orders.BACKTEST false
               (Inputs.mk_order Orders.MARKET Orders.PENDING None None None)) 5 "alphaflow_1" true))
       "alphaflow_1" = Some o
     /\ Orders.status o = Orders.CANCELED /\ Orders.canceled_at o = Some 5%Z)
  /\ Orders.cancel_order
       (snd (Orders.cancel_order (Inputs.manager_with Orders.BACKTEST false
               (Inputs.mk_order Orders.MARKET Orders.PENDING None None None)) 5 "alphaflow_1" true))
       6 "alphaflow_1" true
     = (false, snd (Orders.cancel_order (Inputs.manager_with Orders.BACKTEST false
               (Inputs.mk_order Orders.MARKET Orders.PENDING None None None)) 5 "alphaflow_1" true)).
Proof.
  apply (cancel_is_final _ 5 "alphaflow_1" true 6 true). reflexivity.
Defined.

(** X20: [submit_order] does not check the order's status: outside
    analysis mode, an order just canceled is submitted again when the
    broker accepts it (or filled at once in backtest mode), and it keeps
    its [canceled_at] time. *)
Theorem canceled_order_can_be_resubmitted m now cid ok now' oid :
  fst (Orders.cancel_order m now cid ok) = true ->
  Orders.trading_mode m <> Orders.ANALYSIS ->
  exists m2 o,
    Orders.submit_order (snd (Orders.cancel_order m now cid ok)) now' cid (inl oid) = (true, m2)
    /\ Orders.stored_order m2 cid = Some o
    /\ (Orders.status o = Orders.SUBMITTED \/ Orders.status o = Orders.FILLED)
    /\ Orders.canceled_at o = Some now.
Proof.
  intros H Hna. destruct (OrderFacts.cancel_success_shape m now cid ok H) as (o & Ho & Hmode & Hm).
  rewrite Hm. unfold Orders.submit_order.
  cbn [Orders.orders Orders.with_orders Orders.trading_mode Orders.alpaca_api].
  rewrite lookup_insert_eq.
  destruct (Orders.trading_mode m) eqn:Em; cbn [Orders.TradingMode_eqb] in *.
  - destruct Hmode as [Hb|Ha]; [discriminate|]. rewrite Ha. cbn [negb].
    do 2 eexists. split; [reflexivity|].
    split; [unfold Orders.stored_order; cbn [Orders.orders Orders.with_orders];
            apply lookup_insert_eq|].
    split; [left|]; reflexivity.
  - destruct Hmode as [Hb|Ha]; [discriminate|]. rewrite Ha. cbn [negb].
    do 2 eexists. split; [reflexivity|].
    split; [unfold Orders.stored_order; cbn [Orders.orders Orders.with_orders];
            apply lookup_insert_eq|].
    split; [left|]; reflexivity.
  - do 2 eexists. split; [reflexivity|].
    split; [unfold Orders.stored_order; cbn [Orders.orders Orders.with_orders];
            apply lookup_insert_eq|].
    split; [right|]; reflexivity.
  - exfalso. apply Hna. reflexivity.
Qed.

Lemma canceled_order_can_be_resubmitted_witness :
  exists m2 o,
    Orders.submit_order
      (snd (Orders.cancel_order (Inputs.manager_with Orders.PAPER true
              (Inputs.mk_order Orders.LIMIT Orders.SUBMITTED (Some 150) None (Some "b1")))
              5 "alphaflow_1" true)) 6 "alphaflow_1" (inl "b2") = (true, m2)
    /\ Orders.stored_order m2 "alphaflow_1" = Some o
    /\ (Orders.status o = Orders.SUBMITTED \/ Orders.status o = Orders.FILLED)
    /\ Orders.canceled_at o = Some 5%Z.
Proof.
  apply (canceled_order_can_be_resubmitted _ 5 "alphaflow_1" true 6 "b2").
  - reflexivity.
  - discriminate.
Defined.

(** ** The volatility sizing and the unified position sizer *)

Module SizingFacts.
Import Sizing.

(** Python's [int()] of a nonnegative float is a nonnegative integer not
    above it. *)
Lemma py_int_nonneg_le (x : Q) : 0 <= x -> (0 <= py_int x)%Z /\ inject_Z (py_int x) <= x.
Proof.
  destruct x as [n d]. unfold py_int, Qle. cbn [Qnum Qden]. intros H.
  assert (Hn : (0 <= n)%Z) by lia.
  rewrite Z.quot_div_nonneg by lia.
  split; [apply Z.div_pos; lia|].
  cbn. pose proof (Z.mul_div_le n (Zpos d)). lia.
Qed.

Lemma Qeq_bool_nz (x : Q) : ~ x == 0 -> Qeq_bool x 0 = false.
Proof. intros H. destruct (Qeq_bool x 0) eqn:E; [apply Qeq_bool_iff in E; contradiction|reflexivity]. Qed.

End SizingFacts.

(** X21: with a positive price, a nonnegative portfolio value and a
    nonzero stop distance, [calculate_shares] returns a nonnegative count
    whose cost is at most 25% of the portfolio; the 25% cap is applied
    after the [max(1, ...)] step, so one share costing more than a quarter
    of the portfolio gives 0 shares. *)
Theorem volatility_shares_cap rp price atr pv mult :
  0 < price -> 0 <= pv -> ~ mult * atr == 0 ->
  (0 <= Sizing.calculate_shares rp price atr pv mult)%Z
  /\ inject_Z (Sizing.calculate_shares rp price atr pv mult) * price <= pv * (1 # 4).
Proof.
  intros Hp Hv Hd. unfold Sizing.calculate_shares. cbv beta zeta.
  rewrite (SizingFacts.Qeq_bool_nz _ Hd), (Qeq_bool_pos_false price Hp).
  assert (H0 : 0 <= pv * (1 # 4) / price).
  { apply Qle_shift_div_l; [exact Hp|]. rewrite Qmult_0_l.
    apply Qmult_le_0_compat; [exact Hv|]. vm_compute. discriminate. }
  destruct (SizingFacts.py_int_nonneg_le _ H0) as [Hz Hle].
  set (t1 := Sizing.py_int (pv * rp / (mult * atr))).
  set (t2 := Sizing.py_int (pv * (1 # 4) / price)) in *.
  split; [lia|].
  assert (Hm : (Z.min (Z.max 1 t1) t2 <= t2)%Z) by lia.
  apply Qle_trans with (inject_Z t2 * price).
  { apply Qmult_le_compat_r; [rewrite <- Zle_Qle; exact Hm | apply Qlt_le_weak; exact Hp]. }
  apply Qle_trans with (pv * (1 # 4) / price * price).
  { apply Qmult_le_compat_r; [exact Hle | apply Qlt_le_weak; exact Hp]. }
  assert (E : pv * (1 # 4) / price * price == pv * (1 # 4)).
  { field. intros Hz0. rewrite Hz0 in Hp. discriminate. }
  rewrite E. apply Qle_refl.
Qed.

Lemma volatility_shares_cap_witness :
  (0 <= Sizing.calculate_shares (1 # 100) 30000 2 100000 2)%Z
  /\ inject_Z (Sizing.calculate_shares (1 # 100) 30000 2 100000 2) * 30000 <= 100000 * (1 # 4).
Proof.
  apply (volatility_shares_cap (1 # 100) 30000 2 100000 2).
  - reflexivity.
  - vm_compute. discriminate.
  - intros H. vm_compute in H. discriminate.
Defined.

(** X22: the Kelly method without a win rate or without a reward/risk
    ratio (the default) always falls back to the [except] branch: one
    share at the price, whatever the portfolio heat, when the portfolio
    value is nonzero. *)
Theorem kelly_without_stats_one_share a price stop atr wr rr ps :
  ~ Sizing.portfolio_value a == 0 -> (wr = None \/ rr = None) ->
  Sizing.calculate_position_size a price stop atr (Some Sizing.KELLY_CRITERION) wr rr ps
  = Some {| Sizing.shares := 1; Sizing.dollar_amount := price;
            Sizing.percent_of_portfolio := price / Sizing.portfolio_value a;
            Sizing.risk_amount := Qabs (price - stop); Sizing.method := Sizing.KELLY_CRITERION |}.
Proof.
  intros Hpv Hn. unfold Sizing.calculate_position_size. cbv beta zeta iota.
  rewrite (SizingFacts.Qeq_bool_nz _ Hpv).
  destruct (Sizing.kelly_method a price wr rr) as [s|];
    [destruct Hn as [-> | ->]; [|destruct wr]|]; reflexivity.
Qed.

Lemma kelly_without_stats_one_share_witness :
  Sizing.calculate_position_size Inputs.sizer100k 50 45 2 (Some Sizing.KELLY_CRITERION)
    None (Some 2) Inputs.hot_positions
  = Some {| Sizing.shares := 1; Sizing.dollar_amount := 50;
            Sizing.percent_of_portfolio := 50 / Sizing.portfolio_value Inputs.sizer100k;
            Sizing.risk_amount := Qabs (50 - 45); Sizing.method := Sizing.KELLY_CRITERION |}.
Proof.
  apply (kelly_without_stats_one_share Inputs.sizer100k 50 45 2 None (Some 2)).
  - intros H. vm_compute in H. discriminate.
  - left. reflexivity.
Defined.

(** X23: with a zero portfolio value the sizer raises for every input and
    method: the [except] branch divides by the portfolio value again. *)
Theorem sizer_zero_portfolio_raises a price stop atr m wr rr ps :
  Sizing.portfolio_value a == 0 ->
  Sizing.calculate_position_size a price stop atr m wr rr ps = None.
Proof.
  intros H. unfold Sizing.calculate_position_size. cbv beta zeta.
  assert (E : Qeq_bool (Sizing.portfolio_value a) 0 = true) by (apply Qeq_bool_iff; exact H).
  rewrite E.
  destruct (match m with Some x => x | None => Sizing.default_method a end);
    try destruct (Sizing.kelly_method a price wr rr); try destruct wr; try destruct rr;
    try destruct (Sizing.fixed_percent_method a price (1 # 10));
    try destruct (Sizing.fixed_dollar_method price 10000); reflexivity.
Qed.

Lemma sizer_zero_portfolio_raises_witness :
  Sizing.calculate_position_size
    {| Sizing.portfolio_value := 0; Sizing.default_method := Sizing.VOLATILITY_ADJUSTED |}
    50 45 2 None None None [] = None.
Proof.
  apply sizer_zero_portfolio_raises. reflexivity.
Defined.

(** X24: when the portfolio heat calls for STOP_TRADING, the volatility
    sizer returns 0 shares and $0, but its risk amount and percent of
    portfolio are still those of the unblocked share count. *)
Theorem sizer_blocked_keeps_risk a price stop atr ps :
  ~ Sizing.portfolio_value a == 0 ->
  snd (Sizing.calculate_heat PositionSizing.default_heat_manager ps (Sizing.portfolio_value a))
  = Sizing.STOP_TRADING ->
  exists r,
    Sizing.calculate_position_size a price stop atr (Some Sizing.VOLATILITY_ADJUSTED) None None ps
    = Some r
    /\ Sizing.shares r = 0%Z /\ Sizing.dollar_amount r == 0
    /\ Sizing.risk_amount r == Qabs (price - stop) * inject_Z (Sizing.volatility_method a price atr)
    /\ Sizing.percent_of_portfolio r
       == inject_Z (Sizing.volatility_method a price atr) * price / Sizing.portfolio_value a.
Proof.
  intros Hpv Hh. unfold Sizing.calculate_position_size. cbv beta zeta iota.
  rewrite (SizingFacts.Qeq_bool_nz _ Hpv), Hh.
  eexists. split; [reflexivity|]. cbn.
  repeat split; reflexivity.
Qed.

Lemma sizer_blocked_keeps_risk_witness :
  exists r,
    Sizing.calculate_position_size Inputs.sizer100k 50 45 2 (Some Sizing.VOLATILITY_ADJUSTED)
      None None Inputs.hot_positions = Some r
    /\ Sizing.shares r = 0%Z /\ Sizing.dollar_amount r == 0
    /\ Sizing.risk_amount r == Qabs (50 - 45) * inject_Z (Sizing.volatility_method Inputs.sizer100k 50 2)
    /\ Sizing.percent_of_portfolio r
       == inject_Z (Sizing.volatility_method Inputs.sizer100k 50 2) * 50
          / Sizing.portfolio_value Inputs.sizer100k.
Proof.
  apply (sizer_blocked_keeps_risk Inputs.sizer100k 50 45 2 Inputs.hot_positions).
  - intros H. vm_compute in H. discriminate.
  - vm_compute. reflexivity.
Defined.

(** ** The strategy worker's per-symbol step, beyond C3 and C4 *)

(** X25: with a trading engine, a position of the strategy on the symbol
    that is still open after the per-symbol step, and whose stop loss (or,
    the stop not firing, take profit) fires at the current price, is one
    whose exit sale raised: its entry price is 0 or a call of
    [_execute_sell] (broker order, history, notification) failed. *)
Theorem process_symbol_triggered_exit_left buy_plan sell_steps sid sym signal price w p :
  Executor.positions (Executor.process_symbol true buy_plan sell_steps sid sym signal price w)
    !! (sid, sym) = Some p ->
  (Executor.check_stop_loss price p = true ->
   Executor.p_entry_price p == 0
   \/ sell_steps sid sym price "stop_loss" <> Executor.SellDone)
  /\ (Executor.check_stop_loss price p = false -> Executor.check_take_profit price p = true ->
      Executor.p_entry_price p == 0
      \/ sell_steps sid sym price "take_profit" <> Executor.SellDone).
Proof.
  unfold Executor.process_symbol. cbv zeta.
  set (w1 := if String.eqb signal "BUY" then _ else _).
  assert (Hexit : forall reason q,
    Executor.positions w1 !! (sid, sym) = Some q ->
    Executor.positions (snd (Executor.execute_sell true sell_steps sid sym price reason w1))
      !! (sid, sym) = Some p ->
    q = p /\ (Executor.p_entry_price p == 0 \/ sell_steps sid sym price reason <> Executor.SellDone)).
  { intros reason q E H.
    destruct (ExecutorFacts.sell_cases true sell_steps sid sym reason price w1)
      as [[[Hf Hk]|[_ Hk]] _]; rewrite Hk in H; [|rewrite lookup_delete_eq in H; discriminate].
    rewrite E in H. injection H as ->. split; [reflexivity|].
    destruct (Qeq_bool (Executor.p_entry_price p) 0) eqn:Ez;
      [left; apply Qeq_bool_iff; exact Ez|right].
    intros Hs.
    assert (Ht : fst (Executor.execute_sell true sell_steps sid sym price reason w1) = true).
    { apply (ExecutorFacts.sell_result_iff sell_steps sid sym reason price w1 p E).
      split; [intros Hz; apply Qeq_bool_iff in Hz; congruence | exact Hs]. }
    congruence. }
  destruct (Executor.positions w1 !! (sid, sym)) as [q|] eqn:E.
  - destruct (Executor.check_stop_loss price q) eqn:Es.
    + intros H. destruct (Hexit "stop_loss" q eq_refl H) as [-> Hr].
      split; [intros _; exact Hr | congruence].
    + destruct (Executor.check_take_profit price q) eqn:Et.
      * intros H. destruct (Hexit "take_profit" q eq_refl H) as [-> Hr].
        split; [congruence | intros _ _; exact Hr].
      * rewrite E. intros H. injection H as <-. split; congruence.
  - rewrite E. discriminate.
Qed.

(** The stop at $95 is hit at $94 while the broker refuses every order: the
    position stays open. *)
Lemma process_symbol_triggered_exit_left_witness :
  Executor.positions
    (Executor.process_symbol true Inputs.no_buy Inputs.broker_down "s1" "AAPL" "HOLD" 94
       Inputs.world0) !! ("s1", "AAPL") = Some Inputs.pos100
  /\ (Executor.p_entry_price Inputs.pos100 == 0
      \/ Inputs.broker_down "s1" "AAPL" 94 "stop_loss" <> Executor.SellDone).
Proof.
  assert (H : Executor.positions
    (Executor.process_symbol true Inputs.no_buy Inputs.broker_down "s1" "AAPL" "HOLD" 94
       Inputs.world0) !! ("s1", "AAPL") = Some Inputs.pos100) by (vm_compute; reflexivity).
  split; [exact H|].
  apply (proj1 (process_symbol_triggered_exit_left Inputs.no_buy Inputs.broker_down
                  "s1" "AAPL" "HOLD" 94 Inputs.world0 Inputs.pos100 H)).
  vm_compute. reflexivity.
Defined.

(** X26: without a trading engine the per-symbol step changes nothing:
    no signal is acted on, and a stop loss or take profit that fires
    closes nothing and logs no trade. *)
Theorem process_symbol_without_engine buy_plan sell_steps sid sym signal price w :
  Executor.process_symbol false buy_plan sell_steps sid sym signal price w = w.
Proof.
  unfold Executor.process_symbol, Executor.execute_buy, Executor.execute_sell. cbn [negb].
  destruct (String.eqb signal "BUY"); [destruct (Executor.has_position w sid sym)
                                     | destruct (String.eqb signal "SELL");
                                       [destruct (Executor.has_position w sid sym)|]];
    cbn [negb snd];
    destruct (Executor.positions w !! (sid, sym)) as [q|]; try reflexivity;
    destruct (Executor.check_stop_loss price q); try reflexivity;
    destruct (Executor.check_take_profit price q); reflexivity.
Qed.

(** ** Correlated clusters *)

Module ClusterFacts.
Import PortfolioRisk.

Lemma mem_str_iff (s : string) (l : list string) : mem_str s l = true <-> In s l.
Proof.
  unfold mem_str. rewrite existsb_exists. split.
  - intros (x & Hx & He). apply String.eqb_eq in He. subst x. exact Hx.
  - intros H. exists s. split; [exact H | apply String.eqb_refl].
Qed.

Lemma mem_str_false (s : string) (l : list string) : mem_str s l = false -> ~ In s l.
Proof. intros H Hin. apply mem_str_iff in Hin. congruence. Qed.

Lemma perm_snoc (l : list string) (l' : list string) (x : string) :
  Permutation l l' -> Permutation (l ++ [x]) (x :: l').
Proof.
  intros H. eapply Permutation_trans; [apply Permutation_sym, Permutation_cons_append|].
  apply perm_skip. exact H.
Qed.

(** One step of the inner loop either raises or assigns at most the symbol
    it visits. *)
Lemma absorb_shape m corr sym cl asg x cl2 a2 :
  absorb m corr sym (cl, asg) x = Some (cl2, a2) ->
  (cl2 = cl /\ a2 = asg) \/ (cl2 = cl ++ [x] /\ a2 = x :: asg /\ x <> sym /\ ~ In x asg).
Proof.
  unfold absorb. destruct (String.eqb x sym || mem_str x asg) eqn:Eb.
  - intros H. injection H as <- <-. left; split; reflexivity.
  - apply orb_false_iff in Eb. destruct Eb as [Es Em].
    apply String.eqb_neq in Es. apply mem_str_false in Em.
    destruct (corr sym x) as [c| |]; [destruct (Qle_bool (correlation_threshold m) c)| |];
      intros H; try discriminate; injection H as <- <-; [right|left|left]; auto.
Qed.

(** The inner loop keeps: the clusters built so far plus the current one
    list the assigned symbols once each, all of them among [symbols]. *)
Lemma absorb_fold m corr sym (symbols : list string) (cs : list (list string)) :
  forall l cl asg cl' asg',
  incl l symbols -> incl asg symbols ->
  Permutation (concat cs ++ cl) asg -> List.NoDup asg ->
  fold_opt (absorb m corr sym) l (cl, asg) = Some (cl', asg') ->
  Permutation (concat cs ++ cl') asg' /\ List.NoDup asg' /\ incl asg' symbols /\ incl asg asg'.
Proof.
  induction l as [|x l IH]; intros cl asg cl' asg' Hl Ha Hp Hn Hf; cbn [fold_opt] in Hf.
  - injection Hf as <- <-. repeat split; auto. apply incl_refl.
  - revert Hf. destruct (absorb m corr sym (cl, asg) x) as [[c2 a2]|] eqn:Ea;
      [intros Hf|discriminate].
    assert (Hs : Permutation (concat cs ++ c2) a2 /\ List.NoDup a2 /\ incl a2 symbols /\ incl asg a2).
    { destruct (absorb_shape _ _ _ _ _ _ _ _ Ea) as [[-> ->]|(-> & -> & _ & Hx)].
      - repeat split; auto. apply incl_refl.
      - split; [rewrite app_assoc; apply perm_snoc; exact Hp|].
        split; [apply List.NoDup_cons; assumption|].
        split; [apply incl_cons; [apply Hl; left; reflexivity | exact Ha]|].
        apply incl_tl, incl_refl. }
    destruct Hs as (Hp2 & Hn2 & Ha2 & Hi2).
    destruct (IH c2 a2 cl' asg' (fun y Hy => Hl y (or_intror Hy)) Ha2 Hp2 Hn2 Hf) as (Hp' & Hn' & Ha' & Hi').
    repeat split; auto. eapply incl_tran; eassumption.
Qed.

(** The outer loop keeps the same property for the list of clusters, and
    assigns every symbol it visits. *)
Lemma cluster_fold m corr (symbols : list string) :
  forall l cs asg cs' asg',
  incl l symbols -> incl asg symbols -> Permutation (concat cs) asg -> List.NoDup asg ->
  fold_opt (cluster_step m corr symbols) l (cs, asg) = Some (cs', asg') ->
  Permutation (concat cs') asg' /\ List.NoDup asg' /\ incl asg' symbols
  /\ incl asg asg' /\ incl l asg'.
Proof.
  induction l as [|x l IH]; intros cs asg cs' asg' Hl Ha Hp Hn Hf; cbn [fold_opt] in Hf.
  - injection Hf as <- <-. repeat split; auto; [apply incl_refl | intros ? []].
  - revert Hf. destruct (cluster_step m corr symbols (cs, asg) x) as [[cs2 a2]|] eqn:Ec;
      [intros Hf|discriminate].
    assert (Hx : In x symbols) by (apply Hl; left; reflexivity).
    assert (Hs : Permutation (concat cs2) a2 /\ List.NoDup a2 /\ incl a2 symbols /\ incl asg a2
                 /\ In x a2).
    { unfold cluster_step in Ec.
      destruct (mem_str x asg) eqn:Em.
      - injection Ec as <- <-. apply mem_str_iff in Em. repeat split; auto. apply incl_refl.
      - apply mem_str_false in Em. revert Ec.
        destruct (fold_opt (absorb m corr x) symbols ([x], x :: asg)) as [[cl asg1]|] eqn:Ef;
          [intros Ec|discriminate].
        injection Ec as <- <-.
        destruct (absorb_fold m corr x symbols cs symbols [x] (x :: asg) cl asg1
                    (incl_refl _) (incl_cons Hx Ha) (perm_snoc _ _ _ Hp)
                    (List.NoDup_cons _ Em Hn) Ef) as (Hp1 & Hn1 & Ha1 & Hi1).
        rewrite concat_app. cbn [concat]. rewrite app_nil_r.
        repeat split; auto.
        + intros y Hy. apply Hi1. right. exact Hy.
        + apply Hi1. left. reflexivity. }
    destruct Hs as (Hp2 & Hn2 & Ha2 & Hi2 & Hx2).
    destruct (IH cs2 a2 cs' asg' (fun y Hy => Hl y (or_intror Hy)) Ha2 Hp2 Hn2 Hf)
      as (Hp' & Hn' & Ha' & Hi' & Hl').
    repeat split; auto.
    + eapply incl_tran; eassumption.
    + apply incl_cons; [apply Hi'; exact Hx2 | exact Hl'].
Qed.

(** The inner loop raises when it meets an unassigned symbol, other than the
    seed, whose lookup is a [Series]: no earlier step can assign it. *)
Lemma absorb_raises m corr sym o :
  o <> sym -> corr sym o = NonScalar ->
  forall l cl asg, In o l -> ~ In o asg ->
  fold_opt (absorb m corr sym) l (cl, asg) = None.
Proof.
  intros Hos Hc. induction l as [|x l IH]; intros cl asg Hin Hna; [destruct Hin|].
  cbn [fold_opt].
  destruct (String.eqb x o) eqn:Exo.
  - apply String.eqb_eq in Exo. subst x. unfold absorb.
    assert (E1 : String.eqb o sym = false) by (apply String.eqb_neq; exact Hos).
    assert (E2 : mem_str o asg = false)
      by (destruct (mem_str o asg) eqn:E; [apply mem_str_iff in E; contradiction | reflexivity]).
    rewrite E1, E2, Hc. reflexivity.
  - apply String.eqb_neq in Exo.
    destruct Hin as [Hx|Hin]; [congruence|].
    destruct (absorb m corr sym (cl, asg) x) as [[c2 a2]|] eqn:Ea; [|reflexivity].
    apply IH; [exact Hin|].
    destruct (absorb_shape _ _ _ _ _ _ _ _ Ea) as [[_ ->]|(_ & -> & _ & _)]; [exact Hna|].
    intros [H|H]; [congruence | contradiction].
Qed.

Lemma count_str_pos (x : string) (l : list string) : In x l -> (0 < count_str x l)%nat.
Proof.
  unfold count_str. intros H. destruct (List.filter (String.eqb x) l) eqn:E; [|cbn; lia].
  assert (Hf : In x (List.filter (String.eqb x) l))
    by (apply filter_In; split; [exact H | apply String.eqb_refl]).
  rewrite E in Hf. destruct Hf.
Qed.

(** A list with a repetition has a label occurring at least twice. *)
Lemma not_nodup_count (l : list string) :
  ~ List.NoDup l -> exists x, In x l /\ (1 < count_str x l)%nat.
Proof.
  induction l as [|a l IH]; intros Hnd; [destruct Hnd; apply List.NoDup_nil|].
  destruct (in_dec String.string_dec a l) as [Hin|Hnin].
  - exists a. split; [left; reflexivity|].
    pose proof (count_str_pos a l Hin) as Hc.
    unfold count_str in *. cbn [List.filter]. rewrite String.eqb_refl. cbn [length]. lia.
  - destruct IH as (x & Hx & Hc).
    { intros Hn. apply Hnd. apply List.NoDup_cons; assumption. }
    exists x. split; [right; exact Hx|].
    unfold count_str in *. cbn [List.filter]. destruct (String.eqb x a); cbn [length]; lia.
Qed.

End ClusterFacts.

(** X27: when [find_correlated_clusters] returns, its clusters partition
    the symbols: every symbol appears in exactly one cluster, exactly once,
    and clusters hold no other symbol. *)
Theorem clusters_partition m corr symbols cs :
  PortfolioRisk.find_correlated_clusters m corr symbols = Some cs ->
  List.NoDup (concat cs) /\ forall s, In s (concat cs) <-> In s symbols.
Proof.
  unfold PortfolioRisk.find_correlated_clusters.
  destruct (length symbols <=? 1)%nat eqn:Hlen.
  - intros H. injection H as <-.
    cbn [concat]. rewrite app_nil_r. split; [|tauto].
    destruct symbols as [|a [|b t]]; [apply List.NoDup_nil | | cbn in Hlen; discriminate].
    apply List.NoDup_cons; [intros []|apply List.NoDup_nil].
  - destruct (PortfolioRisk.fold_opt (PortfolioRisk.cluster_step m corr symbols) symbols ([], []))
      as [[cs0 asg]|] eqn:Ef; [|discriminate].
    intros H. injection H as <-.
    destruct (ClusterFacts.cluster_fold m corr symbols symbols [] [] cs0 asg
                (incl_refl _) (incl_nil_l _) (perm_nil _) (List.NoDup_nil _) Ef)
      as (Hp & Hn & Ha & _ & Hl).
    split.
    + eapply Permutation_NoDup; [apply Permutation_sym; exact Hp | exact Hn].
    + intros s. split.
      * intros Hs. apply Ha. eapply Permutation_in; [exact Hp | exact Hs].
      * intros Hs. eapply Permutation_in; [apply Permutation_sym; exact Hp | apply Hl; exact Hs].
Qed.

Lemma clusters_partition_witness :
  List.NoDup (concat [["A"]; ["B"]; ["C"]])
  /\ forall s, In s (concat [["A"]; ["B"]; ["C"]]) <-> In s ["A"; "B"; "C"].
Proof.
  apply (clusters_partition PortfolioRisk.default_manager
           (PortfolioRisk.identity_fallback ["A"; "B"; "C"]) ["A"; "B"; "C"]).
  vm_compute. reflexivity.
Defined.

(** X28: when the correlation download fails, the identity fallback is
    indexed by the symbols as given; if a symbol is repeated and not all
    symbols are the same, [find_correlated_clusters] raises (a [.loc]
    lookup returns a [Series], whose comparison with the threshold has no
    truth value), whatever the threshold. *)
Theorem clusters_repeated_symbol_raises m symbols :
  ~ List.NoDup symbols ->
  (exists a b, In a symbols /\ In b symbols /\ a <> b) ->
  PortfolioRisk.find_correlated_clusters m (PortfolioRisk.identity_fallback symbols) symbols
  = None.
Proof.
  intros Hnd (a & b & Ha & Hb & Hab).
  destruct symbols as [|s0 rest] eqn:Esym; [destruct Ha|].
  rewrite <- Esym in *.
  assert (Hlen : (length symbols <=? 1)%nat = false).
  { subst symbols. destruct rest as [|r rest']; [|reflexivity].
    destruct Ha as [<-|[]]; destruct Hb as [<-|[]]; congruence. }
  assert (Hin0 : In s0 symbols) by (subst symbols; left; reflexivity).
  (* the first seed [s0] meets a repeated label *)
  assert (Hinner : exists o, In o symbols /\ o <> s0
                     /\ PortfolioRisk.identity_fallback symbols s0 o = PortfolioRisk.NonScalar).
  { assert (Hmem : forall o, In o symbols ->
              PortfolioRisk.mem_str s0 symbols && PortfolioRisk.mem_str o symbols = true).
    { intros o Ho. apply andb_true_iff. split; apply ClusterFacts.mem_str_iff; assumption. }
    destruct (Nat.ltb 1 (PortfolioRisk.count_str s0 symbols)) eqn:Ec0.
    - assert (Ho : exists o, In o symbols /\ o <> s0).
      { destruct (String.eqb a s0) eqn:E; [apply String.eqb_eq in E; subst a|].
        - exists b. split; [exact Hb | intros ->; apply Hab; reflexivity].
        - exists a. split; [exact Ha | apply String.eqb_neq; exact E]. }
      destruct Ho as (o & Ho & Hne). exists o. split; [exact Ho|]. split; [exact Hne|].
      unfold PortfolioRisk.identity_fallback. rewrite (Hmem o Ho), Ec0. reflexivity.
    - destruct (ClusterFacts.not_nodup_count symbols Hnd) as (x & Hx & Hc).
      exists x. split; [exact Hx|].
      assert (Hne : x <> s0) by (intros ->; apply Nat.ltb_ge in Ec0; lia).
      split; [exact Hne|].
      unfold PortfolioRisk.identity_fallback. rewrite (Hmem x Hx), Ec0.
      apply Nat.ltb_lt in Hc. rewrite Hc. reflexivity. }
  destruct Hinner as (o & Ho & Hne & Hc).
  unfold PortfolioRisk.find_correlated_clusters. rewrite Hlen.
  assert (Hstep : PortfolioRisk.cluster_step m (PortfolioRisk.identity_fallback symbols) symbols
                    ([], []) s0 = None).
  { unfold PortfolioRisk.cluster_step. cbn [PortfolioRisk.mem_str existsb].
    rewrite (ClusterFacts.absorb_raises m _ s0 o Hne Hc symbols [s0] [s0] Ho); [reflexivity|].
    intros [H|[]]. congruence. }
  revert Hstep. subst symbols. cbn [PortfolioRisk.fold_opt]. intros ->. reflexivity.
Qed.

Lemma clusters_repeated_symbol_raises_witness :
  ~ List.NoDup ["A"; "A"; "B"]
  /\ (exists a b, In a ["A"; "A"; "B"] /\ In b ["A"; "A"; "B"] /\ a <> b)
  /\ PortfolioRisk.find_correlated_clusters PortfolioRisk.default_manager
       (PortfolioRisk.identity_fallback ["A"; "A"; "B"]) ["A"; "A"; "B"] = None.
Proof.
  assert (Hnd : ~ List.NoDup ["A"; "A"; "B"]).
  { intros H. apply List.NoDup_cons_iff in H. destruct H as [H _]. apply H. left. reflexivity. }
  assert (Hab : exists a b, In a ["A"; "A"; "B"] /\ In b ["A"; "A"; "B"] /\ a <> b).
  { exists "A", "B". split; [left; reflexivity|]. split; [right; right; left; reflexivity|].
    discriminate. }
  split; [exact Hnd|]. split; [exact Hab|].
  exact (clusters_repeated_symbol_raises PortfolioRisk.default_manager ["A"; "A"; "B"] Hnd Hab).
Defined.

